(** * Legend on EKS: the manifest graph of the CDK installer

    A shallow embedding of [installers/aws-cdk-eks/lib/legend-platform.ts]
    (the [LegendPlatform] construct) and of the secret declarations of
    [LegendSecretsStack], followed by the properties of the dependency graph
    and of the secret distribution that the design document states.

    The constructs are configuration builders: they register Kubernetes
    manifests on a cluster object and declare ordering edges between them.
    The cluster object is mutated, and the constructor can throw half way, so
    the embedding threads the cluster explicitly and keeps the cluster that a
    throw leaves behind. *)

From Stdlib Require Import String Ascii List ZArith Bool Lia DecimalString.
Import ListNotations.
Open Scope string_scope.
Open Scope list_scope.

(** ** JavaScript values used by the sources *)

Module Js.

(** Truthiness of an optional string parameter: [undefined] and the empty
    string are falsy, every other string is truthy. *)
Definition truthy (s : option string) : bool :=
  match s with
  | None => false
  | Some EmptyString => false
  | Some (String _ _) => true
  end.

(** *** [Number.prototype.toString()] on a number that holds an integer

    A number is a double. It is modelled by the integer it holds; an
    integer that no double holds stands for the double nearest to it, ties
    to the even mantissa, as when the number is read. The digits printed are
    the shortest that read back as the same double. Up to 21 digits the
    integer is printed in full, the digits followed by zeros; beyond that in
    exponent form. *)

Definition decimal (n : Z) : string := NilEmpty.string_of_int (Z.to_int n).

(** The double nearest to a positive integer. *)
Definition nearestDouble (m : Z) : Z :=
  let bits := (Z.log2 m + 1)%Z in
  if (bits <=? 53)%Z then m
  else
    let e := (bits - 53)%Z in
    let q := Z.shiftr m e in
    let r := (m - Z.shiftl q e)%Z in
    let half := Z.shiftl 1 (e - 1) in
    let q' := if (half <? r)%Z || ((r =? half)%Z && Z.odd q) then (q + 1)%Z else q in
    Z.shiftl q' e.

(** The least number of digits [k], from [k] on, and the digits [s] with
    [s * 10^(n-k)] reading back as the double [x] of [n] digits; of two such
    [s] the one nearer to [x], the even one on a tie. The result is the pair
    of [s] and the number of digits of the value it stands for. *)
Fixpoint shortest (fuel : nat) (k n x : Z) : Z * Z :=
  match fuel with
  | O => (x, n)
  | S fuel' =>
      if (n <=? k)%Z then (x, n)
      else
        let p := (10 ^ (n - k))%Z in
        let lo := (x / p)%Z in
        let hi := (lo + 1)%Z in
        let okLo := (nearestDouble (lo * p) =? x)%Z in
        let okHi := (nearestDouble (hi * p) =? x)%Z in
        let dLo := (x - lo * p)%Z in
        let dHi := (hi * p - x)%Z in
        let up := if (hi =? 10 ^ k)%Z then (1, n + 1)%Z else (hi, n) in
        match okLo, okHi with
        | true, true =>
            if (dLo <? dHi)%Z then (lo, n)
            else if (dHi <? dLo)%Z then up
            else if Z.even lo then (lo, n) else up
        | true, false => (lo, n)
        | false, true => up
        | false, false => shortest fuel' (k + 1)%Z n x
        end
  end.

Fixpoint zeros (n : nat) : string :=
  match n with
  | O => EmptyString
  | S n' => String "0" (zeros n')
  end.

(** A positive double that holds an integer. *)
Definition positiveToString (x : Z) : string :=
  if (x <? 2 ^ 53)%Z then decimal x
  else if (2 ^ 1024 <=? x)%Z then "Infinity"
  else
    let n := Z.of_nat (String.length (decimal x)) in
    let (s, n') := shortest 17 1 n x in
    let digits := decimal s in
    let k := Z.of_nat (String.length digits) in
    if (n' <=? 21)%Z then digits ++ zeros (Z.to_nat (n' - k))
    else
      match digits with
      | String d EmptyString => String d ("e+" ++ decimal (n' - 1))
      | String d rest => String d ("." ++ rest ++ "e+" ++ decimal (n' - 1))
      | EmptyString => EmptyString
      end.

Definition toString (n : Z) : string :=
  match n with
  | Z0 => "0"
  | Zpos _ => positiveToString (nearestDouble n)
  | Zneg _ => "-" ++ positiveToString (nearestDouble (- n))
  end.

(** The double-quote character, for the one literal that contains it. *)
Definition dq : string := String (ascii_of_nat 34) EmptyString.

End Js.

(** ** The parts of aws-cdk-lib the constructs consume *)

Module Cdk.

(** [secretsmanager.Secret]: only its identifiers are ever read. *)
Record Secret := mkSecret {
  secretName : string;
  secretArn : string
}.

(** [docdb.Endpoint]. *)
Record Endpoint := mkEndpoint {
  hostname : string;
  port : Z
}.

(** [docdb.DatabaseCluster]: [secret] is optional in the library's type. *)
Record DatabaseCluster := mkDatabaseCluster {
  secret : option Secret;
  clusterEndpoint : Endpoint
}.

(** [ec2.Vpc]. *)
Record Vpc := mkVpc {
  vpcCidrBlock : string
}.

End Cdk.

(** ** Manifest shapes *)

Module K8s.

Definition Labels := list (string * string).

Record ObjectMeta := mkMeta {
  name : string;
  namespace : option string;
  annotations : list (string * string)
}.

(** *** SecretProviderClass *)

Record JmesPathEntry := mkJmes {
  path : string;
  objectAlias : string
}.

Record SpcObject := mkSpcObject {
  objectName : string;
  objectType : string;
  jmesPath : list JmesPathEntry
}.

Record SecretObjectData := mkData {
  data_objectName : string;
  key : string
}.

Record SecretObject := mkSecretObject {
  secretName : string;
  type : string;
  data : list SecretObjectData
}.

(** [objects] is the list that the source hands to [JSON.stringify] before
    storing it under [spec.parameters.objects]; it is kept structured. *)
Record SecretProviderClass := mkSpc {
  spc_metadata : ObjectMeta;
  provider : string;
  objects : list SpcObject;
  secretObjects : list SecretObject
}.

(** *** Deployment *)

Record SecretKeySelector := mkSecretKeyRef {
  ref_name : string;
  ref_key : string
}.

Record EnvVarSource := mkValueFrom {
  secretKeyRef : SecretKeySelector
}.

(** An environment variable carries either a literal [value] or a
    [valueFrom] reference; the object literal leaves the other one out. *)
Record EnvVar := mkEnv {
  env_name : string;
  value : option string;
  valueFrom : option EnvVarSource
}.

Record CsiVolumeSource := mkCsi {
  driver : string;
  csi_readOnly : bool;
  secretProviderClass : string
}.

Record Volume := mkVolume {
  vol_name : string;
  csi : CsiVolumeSource
}.

Record VolumeMount := mkMount {
  mount_name : string;
  mountPath : string;
  mount_readOnly : bool
}.

Record Container := mkContainer {
  container_name : string;
  image : string;
  imagePullPolicy : string;
  containerPorts : list Z;
  env : list EnvVar;
  volumeMounts : list VolumeMount
}.

Record PodSpec := mkPodSpec {
  volumes : list Volume;
  containers : list Container
}.

Record Deployment := mkDeployment {
  dpl_metadata : ObjectMeta;
  replicas : Z;
  matchLabels : Labels;
  template_labels : Labels;
  template_spec : PodSpec
}.

(** *** Service *)

Record ServicePort := mkServicePort {
  svc_port : Z;
  targetPort : Z
}.

Record Service := mkService {
  svc_metadata : ObjectMeta;
  selector : Labels;
  svc_ports : list ServicePort;
  svc_type : string
}.

(** *** Ingress *)

Record HTTPIngressPath := mkPath {
  http_path : string;
  pathType : string;
  backend_service : string;
  backend_port : Z
}.

Record IngressRule := mkRule {
  host : string;
  paths : list HTTPIngressPath
}.

Record Ingress := mkIngress {
  ing_metadata : ObjectMeta;
  rules : list IngressRule
}.

(** *** NetworkPolicy *)

Record NetworkPolicyPeer := mkPeer {
  ipBlock_cidr : string
}.

Record NetworkPolicyIngressRule := mkFrom {
  from : list NetworkPolicyPeer
}.

Record NetworkPolicy := mkNetworkPolicy {
  np_metadata : ObjectMeta;
  podSelector : Labels;
  policyTypes : list string;
  np_ingress : list NetworkPolicyIngressRule
}.

(** *** The documents handed to [addManifest] *)

Inductive Manifest :=
| NamespaceM (m : ObjectMeta)
| SecretProviderClassM (s : SecretProviderClass)
| DeploymentM (d : Deployment)
| ServiceM (s : Service)
| IngressM (i : Ingress)
| NetworkPolicyM (n : NetworkPolicy).

Definition kind (m : Manifest) : string :=
  match m with
  | NamespaceM _ => "Namespace"
  | SecretProviderClassM _ => "SecretProviderClass"
  | DeploymentM _ => "Deployment"
  | ServiceM _ => "Service"
  | IngressM _ => "Ingress"
  | NetworkPolicyM _ => "NetworkPolicy"
  end.

Definition apiVersion (m : Manifest) : string :=
  match m with
  | NamespaceM _ => "v1"
  | SecretProviderClassM _ => "secrets-store.csi.x-k8s.io/v1"
  | DeploymentM _ => "apps/v1"
  | ServiceM _ => "v1"
  | IngressM _ => "networking.k8s.io/v1"
  | NetworkPolicyM _ => "networking.k8s.io/v1"
  end.

Definition metadata (m : Manifest) : ObjectMeta :=
  match m with
  | NamespaceM x => x
  | SecretProviderClassM s => spc_metadata s
  | DeploymentM d => dpl_metadata d
  | ServiceM s => svc_metadata s
  | IngressM i => ing_metadata i
  | NetworkPolicyM n => np_metadata n
  end.

End K8s.

(** ** The cluster object and the construction monad *)

Module Graph.

(** A registered manifest is referred to by the construct id it was
    registered under. *)
Definition NodeId := string.

(** [dependencies] holds one pair (dependent, prerequisite) per declared
    edge, in declaration order. *)
Record Cluster := mkCluster {
  manifests : list (NodeId * K8s.Manifest);
  dependencies : list (NodeId * NodeId)
}.

(** A cluster on which nothing has been registered yet. *)
Definition newCluster : Cluster := mkCluster [] [].

Inductive Outcome (A : Type) :=
| Returned (a : A)
| Thrown (message : string).
Arguments Returned {A} a.
Arguments Thrown {A} message.

(** A construction step reads and updates the cluster; what it registered
    before throwing stays registered. *)
Definition Build (A : Type) := Cluster -> Outcome A * Cluster.

Definition ret {A} (a : A) : Build A := fun c => (Returned a, c).

Definition bind {A B} (m : Build A) (k : A -> Build B) : Build B :=
  fun c =>
    match m c with
    | (Returned a, c') => k a c'
    | (Thrown e, c') => (Thrown e, c')
    end.

Definition throw {A} (message : string) : Build A :=
  fun c => (Thrown message, c).

(** The id is taken on the cluster. *)
Definition registered (c : Cluster) (id : string) : bool :=
  existsb (String.eqb id) (map fst (manifests c)).

(** What the construct tree says of an id that is taken; the library's
    message goes on to name the cluster. *)
Definition alreadyRegistered (id : string) : string :=
  "There is already a Construct with name 'manifest-" ++ id ++ "'".

(** [cluster.addManifest(id, manifest)]: the manifest becomes the child
    [manifest-<id>] of the cluster, and a child id that is taken makes the
    call throw. *)
Definition addManifest (id : string) (m : K8s.Manifest) : Build NodeId :=
  fun c =>
    if registered c id then (Thrown (alreadyRegistered id), c)
    else (Returned id, mkCluster (manifests c ++ [(id, m)]) (dependencies c)).

(** [node.addDependency(...deps)] *)
Definition addDependency (node : NodeId) (deps : list NodeId) : Build unit :=
  fun c =>
    (Returned tt,
     mkCluster (manifests c) (dependencies c ++ map (fun d => (node, d)) deps)).

(** [for (const x of xs) body(x)] *)
Fixpoint forEach {A} (xs : list A) (body : A -> Build unit) : Build unit :=
  match xs with
  | [] => ret tt
  | x :: rest => bind (body x) (fun _ => forEach rest body)
  end.

(** Prerequisites declared for a node, in declaration order. *)
Definition prerequisites (c : Cluster) (node : NodeId) : list NodeId :=
  map snd (filter (fun e => String.eqb (fst e) node) (dependencies c)).

Definition lookup (c : Cluster) (node : NodeId) : option K8s.Manifest :=
  option_map snd (find (fun n => String.eqb (fst n) node) (manifests c)).

End Graph.

Declare Scope build_scope.
Delimit Scope build_scope with build.
Notation "x <- m ;; k" := (Graph.bind m (fun x => k))
  (at level 61, m at next level, right associativity) : build_scope.
Notation "m ;;; k" := (Graph.bind m (fun _ => k))
  (at level 61, right associativity) : build_scope.

(** ** legend-platform.ts *)

Module LegendPlatform.

Import Graph K8s.
Local Open Scope build_scope.

(** [LegendPlatformProps]; its [cluster] member is the cluster threaded by
    [Build]. *)
Record LegendPlatformProps := mkProps {
  vpc : Cdk.Vpc;
  domainNameSecret : Cdk.Secret;
  certificateArnSecret : Cdk.Secret;
  gitlabAppIdSecret : Cdk.Secret;
  gitlabAppSecret : Cdk.Secret;
  grafanaAdminSecret : Cdk.Secret;
  docdbCluster : Cdk.DatabaseCluster
}.

Definition namespace : string := "legend".

(** The local [jmesPath] of [createSecretProviderClass]. The tests on the
    optional parameters are truthiness tests: an empty string counts as
    absent. *)
Definition jmesPath (k8sSecretKey : string)
    (secretProperty alternateProperty alternateKey : option string)
    : list JmesPathEntry :=
  let jmes :=
    match secretProperty with
    | Some (String _ _ as property) => [mkJmes property k8sSecretKey]
    | _ => [mkJmes "." k8sSecretKey]
    end in
  match alternateProperty, alternateKey with
  | Some (String _ _ as property), Some (String _ _ as alias) =>
      jmes ++ [mkJmes property alias]
  | _, _ => jmes
  end.

(** The local [spcDef] of [createSecretProviderClass]. *)
Definition spcDef (idSuffix namespace secretArn k8sSecretName k8sSecretKey : string)
    (secretProperty alternateProperty alternateKey : option string)
    : SecretProviderClass :=
  let jmes := jmesPath k8sSecretKey secretProperty alternateProperty alternateKey in
  mkSpc (mkMeta idSuffix (Some namespace) [])
        "aws"
        [mkSpcObject secretArn "secretsmanager" jmes]
        [mkSecretObject k8sSecretName "Opaque"
           (map (fun mp => mkData (objectAlias mp) (objectAlias mp)) jmes)].

Definition createSecretProviderClass
    (idSuffix namespace secretArn k8sSecretName k8sSecretKey : string)
    (secretProperty alternateProperty alternateKey : option string)
    : Build NodeId :=
  addManifest ("SecretProviderClass-" ++ idSuffix)
    (SecretProviderClassM
       (spcDef idSuffix namespace secretArn k8sSecretName k8sSecretKey
               secretProperty alternateProperty alternateKey)).

Definition fromSecret (name key : string) : option EnvVarSource :=
  Some (mkValueFrom (mkSecretKeyRef name key)).

Definition commonEnv (docdbCluster : Cdk.DatabaseCluster) : list EnvVar :=
  [ mkEnv "LEGEND_DOMAIN" None (fromSecret "legend-domain-secret" "LEGEND_DOMAIN");
    mkEnv "GITLAB_APP_ID" None (fromSecret "legend-gitlab-id-secret" "GITLAB_APP_ID");
    mkEnv "GITLAB_APP_SECRET" None (fromSecret "legend-gitlab-secret" "GITLAB_APP_SECRET");
    mkEnv "DOCDB_HOST" (Some (Cdk.hostname (Cdk.clusterEndpoint docdbCluster))) None;
    mkEnv "DOCDB_PORT"
          (Some (Js.toString (Cdk.port (Cdk.clusterEndpoint docdbCluster)))) None;
    mkEnv "DOCDB_NAME" (Some "legend") None;
    mkEnv "DOCDB_USER" None (fromSecret "legend-docdb-secret" "DOCDB_USERNAME");
    mkEnv "DOCDB_PASS" None (fromSecret "legend-docdb-secret" "DOCDB_PASSWORD") ].

Definition csiVolume (volName spc : string) : Volume :=
  mkVolume volName (mkCsi "secrets-store.csi.k8s.io" true spc).

(** [makeDeployment]; the [namespace] and [commonEnv] it closes over are
    arguments here. *)
Definition makeDeployment (namespace : string) (commonEnv : list EnvVar)
    (appName image : string) (port : Z) : Deployment :=
  mkDeployment
    (mkMeta appName (Some namespace) [])
    2
    [("app", appName)]
    [("app", appName)]
    (mkPodSpec
       [ csiVolume (appName ++ "-domain-vol") "domain-spc";
         csiVolume (appName ++ "-cert-vol") "cert-spc";
         csiVolume (appName ++ "-gitlabid-vol") "gitlab-id-spc";
         csiVolume (appName ++ "-gitlabsecret-vol") "gitlab-secret-spc";
         csiVolume (appName ++ "-grafana-vol") "grafana-spc";
         csiVolume (appName ++ "-docdb-vol") "docdb-spc" ]
       [ mkContainer appName image "Always" [port] commonEnv
           [ mkMount (appName ++ "-domain-vol") ("/mnt/" ++ appName ++ "/domain") true;
             mkMount (appName ++ "-cert-vol") ("/mnt/" ++ appName ++ "/cert") true;
             mkMount (appName ++ "-gitlabid-vol") ("/mnt/" ++ appName ++ "/gitlab-id") true;
             mkMount (appName ++ "-gitlabsecret-vol")
                     ("/mnt/" ++ appName ++ "/gitlab-secret") true;
             mkMount (appName ++ "-grafana-vol") ("/mnt/" ++ appName ++ "/grafana") true;
             mkMount (appName ++ "-docdb-vol") ("/mnt/" ++ appName ++ "/docdb") true ] ]).

Definition makeService (namespace appName : string) (port : Z) : Service :=
  mkService (mkMeta appName (Some namespace) [])
            [("app", appName)]
            [mkServicePort port port]
            "ClusterIP".

Record Component := mkComponent {
  comp_name : string;
  comp_image : string;
  comp_port : Z
}.

Definition components : list Component :=
  [ mkComponent "legend-engine" "finos/legend-engine-server:latest" 6300;
    mkComponent "legend-sdlc" "finos/legend-sdlc-server:latest" 6100;
    mkComponent "legend-studio" "finos/legend-studio:latest" 9000;
    mkComponent "legend-query" "finos/legend-query:latest" 9001;
    mkComponent "legend-pure-ide" "finos/legend-engine-pure-ide-light:latest" 9200;
    mkComponent "legend-depot" "finos/legend-depot-server:latest" 6200;
    mkComponent "legend-depot-store" "finos/legend-depot-store-server:latest" 6201 ].

(** The [paths] literal of the ingress rule. *)
Definition ingressPaths : list HTTPIngressPath :=
  [ mkPath "/engine/*" "Prefix" "legend-engine" 6300;
    mkPath "/sdlc/*" "Prefix" "legend-sdlc" 6100;
    mkPath "/studio/*" "Prefix" "legend-studio" 9000;
    mkPath "/query/*" "Prefix" "legend-query" 9001;
    mkPath "/ide/*" "Prefix" "legend-pure-ide" 9200;
    mkPath "/depot/*" "Prefix" "legend-depot" 6200;
    mkPath "/depot-store/*" "Prefix" "legend-depot-store" 6201 ].

Definition listenPorts : string :=
  "[{" ++ Js.dq ++ "HTTP" ++ Js.dq ++ ":80," ++ Js.dq ++ "HTTPS" ++ Js.dq ++ ":443}]".

Definition ingressManifest (namespace : string) (paths : list HTTPIngressPath)
    : Ingress :=
  mkIngress
    (mkMeta "legend-ingress" (Some namespace)
       [ ("kubernetes.io/ingress.class", "alb");
         ("alb.ingress.kubernetes.io/scheme", "internet-facing");
         ("alb.ingress.kubernetes.io/listen-ports", listenPorts);
         ("alb.ingress.kubernetes.io/certificate-arn", "{{REPLACE_WITH_YOUR_CERT_ARN}}");
         ("alb.ingress.kubernetes.io/ssl-redirect", "443") ])
    [ mkRule "{{REPLACE_WITH_DOMAIN_NAME}}" paths ].

Definition networkPolicyManifest (namespace : string) (vpc : Cdk.Vpc)
    : NetworkPolicy :=
  mkNetworkPolicy
    (mkMeta "legend-deny-all-except-alb" (Some namespace) [])
    []
    ["Ingress"]
    [ mkFrom [ mkPeer (Cdk.vpcCidrBlock vpc) ] ].

Definition noMasterSecret : string :=
  "DocumentDB cluster has no master secret. Make sure docdb is configured with generated credentials.".

(** The body of the constructor, over the environment list and the routing
    paths. The source fixes both in literals ([commonEnv], [ingressPaths]),
    and [constructor] below applies the body to these literals: it is the
    construction of the source. *)
Definition assemble (env : Cdk.DatabaseCluster -> list EnvVar)
    (paths : list HTTPIngressPath) (props : LegendPlatformProps) : Build unit :=
  ns <- addManifest "LegendNamespace" (NamespaceM (mkMeta namespace None [])) ;;
  domainSpc <- createSecretProviderClass "domain-spc" namespace
                 (Cdk.secretArn (domainNameSecret props))
                 "legend-domain-secret" "LEGEND_DOMAIN" None None None ;;
  certSpc <- createSecretProviderClass "cert-spc" namespace
                 (Cdk.secretArn (certificateArnSecret props))
                 "legend-certificate-secret" "LEGEND_CERT_ARN" None None None ;;
  gitlabIdSpc <- createSecretProviderClass "gitlab-id-spc" namespace
                 (Cdk.secretArn (gitlabAppIdSecret props))
                 "legend-gitlab-id-secret" "GITLAB_APP_ID" None None None ;;
  gitlabSecretSpc <- createSecretProviderClass "gitlab-secret-spc" namespace
                 (Cdk.secretArn (gitlabAppSecret props))
                 "legend-gitlab-secret" "GITLAB_APP_SECRET" None None None ;;
  grafanaSpc <- createSecretProviderClass "grafana-spc" namespace
                 (Cdk.secretArn (grafanaAdminSecret props))
                 "legend-grafana-secret" "GRAFANA_ADMIN_PASSWORD" None None None ;;
  match Cdk.secret (docdbCluster props) with
  | None => throw noMasterSecret
  | Some masterSecret =>
      docdbSpc <- createSecretProviderClass "docdb-spc" namespace
                    (Cdk.secretArn masterSecret)
                    "legend-docdb-secret" "DOCDB_PASSWORD"
                    (Some "password") (Some "username") (Some "DOCDB_USERNAME") ;;
      let commonEnv := env (docdbCluster props) in
      forEach components (fun comp =>
        dplManifest <- addManifest (comp_name comp ++ "-deploy")
                         (DeploymentM (makeDeployment namespace commonEnv
                            (comp_name comp) (comp_image comp) (comp_port comp))) ;;
        svcManifest <- addManifest (comp_name comp ++ "-svc")
                         (ServiceM (makeService namespace (comp_name comp) (comp_port comp))) ;;
        addDependency dplManifest
          [ns; domainSpc; certSpc; gitlabIdSpc; gitlabSecretSpc; grafanaSpc; docdbSpc] ;;;
        addDependency svcManifest [dplManifest]) ;;;
      ingress <- addManifest "LegendIngress"
                   (IngressM (ingressManifest namespace paths)) ;;
      networkPolicy <- addManifest "LegendNetworkPolicy"
                   (NetworkPolicyM (networkPolicyManifest namespace (vpc props))) ;;
      addDependency networkPolicy [ingress]
  end.

(** [new LegendPlatform(scope, id, props)], run on [props.cluster]. *)
Definition constructor (props : LegendPlatformProps) : Build unit :=
  assemble commonEnv ingressPaths props.

End LegendPlatform.

(** ** The secret declarations of LegendSecretsStack *)

Module LegendSecretsStack.

Record Key := mkKey {
  key_id : string;
  enableKeyRotation : bool;
  alias : string
}.

Record SecretStringGenerator := mkGenerator {
  secretStringTemplate : string;
  generateStringKey : string;
  passwordLength : option Z;
  excludePunctuation : option bool
}.

(** One [new secretsmanager.Secret(this, id, {...})]. *)
Record SecretDeclaration := mkDeclaration {
  id : string;
  secretName : string;
  description : string;
  encryptionKey : Key;
  generateSecretString : SecretStringGenerator
}.

Record Stack := mkStack {
  domainNameSecret : SecretDeclaration;
  certificateArnSecret : SecretDeclaration;
  gitlabAppIdSecret : SecretDeclaration;
  gitlabAppSecret : SecretDeclaration;
  grafanaAdminSecret : SecretDeclaration;
  outputs : list (string * string)
}.

(** [JSON.stringify({})] *)
Definition emptyObject : string := "{}".

Definition constructor : Stack :=
  let secretsKey := mkKey "LegendSecretsKey" true "legend-secrets-key" in
  let domainNameSecret :=
    mkDeclaration "LegendDomainNameSecret" "legend/domainName" "Legend domain name"
      secretsKey (mkGenerator emptyObject "value" (Some 1%Z) None) in
  let certificateArnSecret :=
    mkDeclaration "LegendCertificateArnSecret" "legend/certificateArn"
      "ACM certificate ARN for Legend domain"
      secretsKey (mkGenerator emptyObject "value" (Some 1%Z) None) in
  let gitlabAppIdSecret :=
    mkDeclaration "LegendGitLabAppIdSecret" "legend/gitlabAppId"
      "GitLab App ID for Legend OAuth"
      secretsKey (mkGenerator emptyObject "value" (Some 1%Z) None) in
  let gitlabAppSecret :=
    mkDeclaration "LegendGitLabAppSecret" "legend/gitlabAppSecret"
      "GitLab App Secret for Legend OAuth"
      secretsKey (mkGenerator emptyObject "value" None (Some false)) in
  let grafanaAdminSecret :=
    mkDeclaration "LegendGrafanaAdminSecret" "legend/grafanaAdminPassword"
      "Admin password for Grafana UI"
      secretsKey (mkGenerator emptyObject "value" (Some 16%Z) (Some false)) in
  mkStack domainNameSecret certificateArnSecret gitlabAppIdSecret gitlabAppSecret
    grafanaAdminSecret
    [ ("DomainNameSecretName", secretName domainNameSecret);
      ("CertificateArnSecretName", secretName certificateArnSecret);
      ("GitLabAppIdSecretName", secretName gitlabAppIdSecret);
      ("GitLabAppSecretSecretName", secretName gitlabAppSecret);
      ("GrafanaAdminSecretName", secretName grafanaAdminSecret) ].

(** The secrets the stack declares, in declaration order. *)
Definition secrets (s : Stack) : list SecretDeclaration :=
  [ domainNameSecret s; certificateArnSecret s; gitlabAppIdSecret s;
    gitlabAppSecret s; grafanaAdminSecret s ].

End LegendSecretsStack.

(** ** Reading a built graph *)

Module Read.

Import Graph K8s.

Definition secretProviderClassesOf (c : Cluster) : list (NodeId * SecretProviderClass) :=
  flat_map (fun n => match snd n with
                     | SecretProviderClassM s => [(fst n, s)]
                     | _ => []
                     end) (manifests c).

Definition deploymentsOf (c : Cluster) : list (NodeId * Deployment) :=
  flat_map (fun n => match snd n with
                     | DeploymentM d => [(fst n, d)]
                     | _ => []
                     end) (manifests c).

Definition nodesOfKind (k : string) (c : Cluster) : list NodeId :=
  map fst (filter (fun n => String.eqb (kind (snd n)) k) (manifests c)).

(** The routing rules of a graph: the paths of every rule of every
    ingress, in order. *)
Definition routingTable (c : Cluster) : list HTTPIngressPath :=
  flat_map (fun n => match snd n with
                     | IngressM i => flat_map paths (rules i)
                     | _ => []
                     end) (manifests c).

(** The environment variables of a deployment, over all its containers. *)
Definition envOf (d : Deployment) : list EnvVar :=
  flat_map env (containers (template_spec d)).

(** The binding names a deployment mounts, in volume order. *)
Definition mountList (d : Deployment) : list string :=
  map (fun v => secretProviderClass (csi v)) (volumes (template_spec d)).

(** One field-map entry of a binding: the synced secret it writes to, the
    key it writes, the record it reads and the property it extracts. An
    entry of [secretObjects] names its source through the alias of a
    [jmesPath] entry. *)
Record FieldMapEntry := mkEntry {
  targetSecretName : string;
  targetKey : string;
  sourceRecord : string;
  sourceProperty : string
}.

Definition fieldMap (s : SecretProviderClass) : list FieldMapEntry :=
  flat_map (fun so =>
    flat_map (fun d =>
      flat_map (fun o =>
        flat_map (fun j =>
          if String.eqb (objectAlias j) (data_objectName d)
          then [mkEntry (secretName so) (key d) (objectName o) (path j)]
          else [])
        (jmesPath o))
      (objects s))
    (data so))
  (secretObjects s).

(** [secretProvides s n k]: binding [s] syncs key [k] into the secret named [n]. *)
Definition secretProvides (s : SecretProviderClass) (n k : string) : bool :=
  existsb (fun e => String.eqb (targetSecretName e) n && String.eqb (targetKey e) k)
          (fieldMap s).

(** The reference of an environment variable is served by a binding that
    the deployment mounts. *)
Definition envRefMounted (c : Cluster) (d : Deployment) (r : SecretKeySelector) : bool :=
  existsb (fun s =>
             existsb (String.eqb (name (spc_metadata (snd s)))) (mountList d)
             && secretProvides (snd s) (ref_name r) (ref_key r))
          (secretProviderClassesOf c).

End Read.

(** ** Sample inputs *)

Module Sample.

Definition secret (name : string) : Cdk.Secret :=
  Cdk.mkSecret name ("arn:aws:secretsmanager:eu-west-1:123456789012:secret:" ++ name).

(** The credential record of the database cluster. *)
Definition masterSecret : Cdk.Secret := secret "LegendDocDBClusterSecret".

Definition endpoint : Cdk.Endpoint :=
  Cdk.mkEndpoint "legend.cluster-abc.eu-west-1.docdb.amazonaws.com" 27017.

(** The five secrets under the names the secrets stack gives them. *)
Definition props : LegendPlatform.LegendPlatformProps :=
  LegendPlatform.mkProps (Cdk.mkVpc "10.0.0.0/16")
    (secret "legend/domainName") (secret "legend/certificateArn")
    (secret "legend/gitlabAppId") (secret "legend/gitlabAppSecret")
    (secret "legend/grafanaAdminPassword")
    (Cdk.mkDatabaseCluster (Some masterSecret) endpoint).

(** The same platform on a database cluster that exposes no secret. *)
Definition propsWithoutSecret : LegendPlatform.LegendPlatformProps :=
  LegendPlatform.mkProps (LegendPlatform.vpc props)
    (LegendPlatform.domainNameSecret props) (LegendPlatform.certificateArnSecret props)
    (LegendPlatform.gitlabAppIdSecret props) (LegendPlatform.gitlabAppSecret props)
    (LegendPlatform.grafanaAdminSecret props)
    (Cdk.mkDatabaseCluster None endpoint).

End Sample.

(** ** What the constructor has registered at the credential check and at its end *)

Module Checkpoint.

Import Graph K8s.

(** The six nodes registered before the credential check. *)
Definition preamble (props : LegendPlatform.LegendPlatformProps)
    : list (NodeId * Manifest) :=
  let spc (idSuffix arn secret key : string) :=
    (("SecretProviderClass-" ++ idSuffix)%string,
     SecretProviderClassM
       (LegendPlatform.spcDef idSuffix LegendPlatform.namespace arn secret key
          None None None)) in
  [ ("LegendNamespace", NamespaceM (mkMeta LegendPlatform.namespace None []));
    spc "domain-spc" (Cdk.secretArn (LegendPlatform.domainNameSecret props))
        "legend-domain-secret" "LEGEND_DOMAIN";
    spc "cert-spc" (Cdk.secretArn (LegendPlatform.certificateArnSecret props))
        "legend-certificate-secret" "LEGEND_CERT_ARN";
    spc "gitlab-id-spc" (Cdk.secretArn (LegendPlatform.gitlabAppIdSecret props))
        "legend-gitlab-id-secret" "GITLAB_APP_ID";
    spc "gitlab-secret-spc" (Cdk.secretArn (LegendPlatform.gitlabAppSecret props))
        "legend-gitlab-secret" "GITLAB_APP_SECRET";
    spc "grafana-spc" (Cdk.secretArn (LegendPlatform.grafanaAdminSecret props))
        "legend-grafana-secret" "GRAFANA_ADMIN_PASSWORD" ].

(** The binding of the database credential, registered after the check. *)
Definition docdbBinding (masterSecret : Cdk.Secret) : NodeId * Manifest :=
  ("SecretProviderClass-docdb-spc",
   SecretProviderClassM
     (LegendPlatform.spcDef "docdb-spc" LegendPlatform.namespace
        (Cdk.secretArn masterSecret) "legend-docdb-secret" "DOCDB_PASSWORD"
        (Some "password") (Some "username") (Some "DOCDB_USERNAME"))).

Definition deployNode (comp : LegendPlatform.Component) : NodeId :=
  (LegendPlatform.comp_name comp ++ "-deploy")%string.

Definition serviceNode (comp : LegendPlatform.Component) : NodeId :=
  (LegendPlatform.comp_name comp ++ "-svc")%string.

(** What one round of the component loop registers. *)
Definition workload (commonEnv : list EnvVar) (comp : LegendPlatform.Component)
    : list (NodeId * Manifest) :=
  [ (deployNode comp,
     DeploymentM (LegendPlatform.makeDeployment LegendPlatform.namespace commonEnv
                    (LegendPlatform.comp_name comp) (LegendPlatform.comp_image comp)
                    (LegendPlatform.comp_port comp)));
    (serviceNode comp,
     ServiceM (LegendPlatform.makeService LegendPlatform.namespace
                 (LegendPlatform.comp_name comp) (LegendPlatform.comp_port comp))) ].

(** The prerequisites handed to [addDependency] for every deployment. *)
Definition workloadPrerequisites : list NodeId :=
  [ "LegendNamespace";
    "SecretProviderClass-domain-spc"; "SecretProviderClass-cert-spc";
    "SecretProviderClass-gitlab-id-spc"; "SecretProviderClass-gitlab-secret-spc";
    "SecretProviderClass-grafana-spc"; "SecretProviderClass-docdb-spc" ].

(** What one round of the component loop declares. *)
Definition workloadEdges (comp : LegendPlatform.Component) : list (NodeId * NodeId) :=
  map (fun p => (deployNode comp, p)) workloadPrerequisites
  ++ [ (serviceNode comp, deployNode comp) ].

(** The cluster after a construction that ran to its end. *)
Definition complete (env : Cdk.DatabaseCluster -> list EnvVar)
    (routes : list HTTPIngressPath) (props : LegendPlatform.LegendPlatformProps)
    (masterSecret : Cdk.Secret) : Cluster :=
  mkCluster
    (preamble props
     ++ docdbBinding masterSecret
     :: flat_map (workload (env (LegendPlatform.docdbCluster props)))
                 LegendPlatform.components
     ++ [ ("LegendIngress",
           IngressM (LegendPlatform.ingressManifest LegendPlatform.namespace routes));
          ("LegendNetworkPolicy",
           NetworkPolicyM (LegendPlatform.networkPolicyManifest LegendPlatform.namespace
                             (LegendPlatform.vpc props))) ])
    (flat_map workloadEdges LegendPlatform.components
     ++ [ ("LegendNetworkPolicy", "LegendIngress") ]).

End Checkpoint.

(** ** The graph a construction leaves behind *)

Module Run.

Import Graph K8s.

(** The outcome and the cluster of the source's construction on a fresh
    cluster. *)
Definition outcome (props : LegendPlatform.LegendPlatformProps) : Outcome unit :=
  fst (LegendPlatform.constructor props newCluster).

Definition graph (props : LegendPlatform.LegendPlatformProps) : Cluster :=
  snd (LegendPlatform.constructor props newCluster).

End Run.

(** ** Kinds of dependency edge *)

Module Edges.

Import Graph K8s Read.

Definition edge (c : Cluster) (dependent prerequisite : NodeId) : Prop :=
  In (dependent, prerequisite) (dependencies c).

Definition edgeb (c : Cluster) (dependent prerequisite : NodeId) : bool :=
  existsb (fun e => String.eqb (fst e) dependent && String.eqb (snd e) prerequisite)
          (dependencies c).

Definition placedIn (ns : string) (m : Manifest) : bool :=
  match namespace (metadata m) with
  | Some n => String.eqb n ns
  | None => false
  end.

Definition mounts (d : Deployment) (s : SecretProviderClass) : bool :=
  existsb (String.eqb (name (spc_metadata s))) (mountList d).

(** A namespace and a manifest placed in it. *)
Definition namespaceEdge (c : Cluster) (dependent prerequisite : NodeId) : bool :=
  match lookup c prerequisite, lookup c dependent with
  | Some (NamespaceM ns), Some m => placedIn (name ns) m
  | _, _ => false
  end.

(** A secret binding and a workload deployment that mounts it. *)
Definition bindingEdge (c : Cluster) (dependent prerequisite : NodeId) : bool :=
  match lookup c prerequisite, lookup c dependent with
  | Some (SecretProviderClassM s), Some (DeploymentM d) => mounts d s
  | _, _ => false
  end.

(** The routing node and a network policy. *)
Definition routingEdge (c : Cluster) (dependent prerequisite : NodeId) : bool :=
  match lookup c prerequisite, lookup c dependent with
  | Some (IngressM _), Some (NetworkPolicyM _) => true
  | _, _ => false
  end.

(** A deployment and the service of the same name. *)
Definition serviceEdge (c : Cluster) (dependent prerequisite : NodeId) : bool :=
  match lookup c prerequisite, lookup c dependent with
  | Some (DeploymentM d), Some (ServiceM s) =>
      String.eqb (name (dpl_metadata d)) (name (svc_metadata s))
  | _, _ => false
  end.

Definition designEdge (c : Cluster) (dependent prerequisite : NodeId) : bool :=
  namespaceEdge c dependent prerequisite
  || bindingEdge c dependent prerequisite
  || routingEdge c dependent prerequisite.

(** Every edge of the three kinds is declared. *)
Definition declaresDesignEdges (c : Cluster) : Prop :=
  forall dependent prerequisite,
    designEdge c dependent prerequisite = true -> edge c dependent prerequisite.

(** Nothing but edges of the three kinds is declared. *)
Definition declaresOnlyDesignEdges (c : Cluster) : Prop :=
  forall dependent prerequisite,
    edge c dependent prerequisite -> designEdge c dependent prerequisite = true.

Definition isDeployment (c : Cluster) (node : NodeId) : bool :=
  match lookup c node with
  | Some (DeploymentM _) => true
  | _ => false
  end.

End Edges.

(** ** Routing prefixes *)

Module Routing.

Import K8s.

(** The path with the trailing wildcard of the load balancer removed. *)
Fixpoint stem (p : string) : string :=
  match p with
  | EmptyString => EmptyString
  | String a EmptyString => if Ascii.eqb a "*"%char then EmptyString else p
  | String a rest => String a (stem rest)
  end.

(** Neither path is a string prefix of the other, as written and without
    the wildcard. *)
Definition disjoint (a b : HTTPIngressPath) : bool :=
  negb (String.prefix (http_path a) (http_path b))
  && negb (String.prefix (http_path b) (http_path a))
  && negb (String.prefix (stem (http_path a)) (stem (http_path b)))
  && negb (String.prefix (stem (http_path b)) (stem (http_path a))).

Fixpoint pairwise {A} (r : A -> A -> bool) (l : list A) : bool :=
  match l with
  | [] => true
  | x :: rest => forallb (fun y => r x y && r y x) rest && pairwise r rest
  end.

End Routing.

(** ** Environment variables *)

Module Env.

Import Graph K8s Read.

Definition isLiteral (e : EnvVar) : bool :=
  match value e with Some _ => true | None => false end.

Definition isSecretRef (e : EnvVar) : bool :=
  match valueFrom e with Some _ => true | None => false end.

(** The variables of a deployment that carry a literal, with the literal. *)
Definition literals (d : Deployment) : list (string * string) :=
  flat_map (fun e => match value e with
                     | Some v => [(env_name e, v)]
                     | None => []
                     end) (envOf d).

(** The variables of a deployment that read a synced secret, with the
    secret name and key they read. *)
Definition references (d : Deployment) : list (string * SecretKeySelector) :=
  flat_map (fun e => match valueFrom e with
                     | Some src => [(env_name e, secretKeyRef src)]
                     | None => []
                     end) (envOf d).

(** Every variable of the deployment reads a synced secret and none
    carries a literal. *)
Definition allIndirect (d : Deployment) : bool :=
  forallb (fun e => isSecretRef e && negb (isLiteral e)) (envOf d).

(** Every secret reference of the deployment's environment is served by a
    binding in its mount list. *)
Definition consistent (c : Cluster) (d : Deployment) : bool :=
  forallb (fun e => match valueFrom e with
                    | Some src => envRefMounted c d (secretKeyRef src)
                    | None => true
                    end) (envOf d).

(** No variable of the deployment reads a key that the binding syncs. *)
Definition unreferenced (s : SecretProviderClass) (d : Deployment) : bool :=
  forallb (fun e => match valueFrom e with
                    | Some src => negb (secretProvides s (ref_name (secretKeyRef src))
                                                         (ref_key (secretKeyRef src)))
                    | None => true
                    end) (envOf d).

End Env.

(** ** Input records and node names *)

Module Input.

(** The secret records a configuration hands to the platform: the five
    declared values and, if the database cluster exposes it, the generated
    database credential. *)
Definition records (props : LegendPlatform.LegendPlatformProps) : list Cdk.Secret :=
  [ LegendPlatform.domainNameSecret props;
    LegendPlatform.certificateArnSecret props;
    LegendPlatform.gitlabAppIdSecret props;
    LegendPlatform.gitlabAppSecret props;
    LegendPlatform.grafanaAdminSecret props ]
  ++ match Cdk.secret (LegendPlatform.docdbCluster props) with
     | Some masterSecret => [masterSecret]
     | None => []
     end.

(** The names under which the nodes are registered, in registration order. *)
Definition nodeNames : list string :=
  [ "LegendNamespace";
    "SecretProviderClass-domain-spc"; "SecretProviderClass-cert-spc";
    "SecretProviderClass-gitlab-id-spc"; "SecretProviderClass-gitlab-secret-spc";
    "SecretProviderClass-grafana-spc"; "SecretProviderClass-docdb-spc";
    "legend-engine-deploy"; "legend-engine-svc";
    "legend-sdlc-deploy"; "legend-sdlc-svc";
    "legend-studio-deploy"; "legend-studio-svc";
    "legend-query-deploy"; "legend-query-svc";
    "legend-pure-ide-deploy"; "legend-pure-ide-svc";
    "legend-depot-deploy"; "legend-depot-svc";
    "legend-depot-store-deploy"; "legend-depot-store-svc";
    "LegendIngress"; "LegendNetworkPolicy" ].

End Input.

(** ** Deciding equality of pairs of names *)

Module Decide.

Definition pair_dec (x y : string * string) : {x = y} + {x <> y}.
Proof. decide equality; apply string_dec. Defined.

End Decide.

(** ** Further readers of a built graph *)

Module Inspect.

Import Graph K8s Read.

Definition servicesOf (c : Cluster) : list (NodeId * Service) :=
  flat_map (fun n => match snd n with
                     | ServiceM s => [(fst n, s)]
                     | _ => []
                     end) (manifests c).

(** Position of a node in registration order. *)
Fixpoint position (names : list NodeId) (node : NodeId) : option nat :=
  match names with
  | [] => None
  | n :: rest => if String.eqb n node then Some 0
                 else option_map S (position rest node)
  end.

(** The prerequisite of the edge is registered strictly before its
    dependent. *)
Definition pointsBack (c : Cluster) (e : NodeId * NodeId) : bool :=
  match position (map fst (manifests c)) (snd e),
        position (map fst (manifests c)) (fst e) with
  | Some i, Some j => Nat.ltb i j
  | _, _ => false
  end.

(** What identifies the object a manifest describes on the cluster. *)
Definition identity (m : Manifest) : string * string :=
  (kind m, name (metadata m)).

(** The manifests that are not secret bindings. *)
Definition withoutBindings (c : Cluster) : list (NodeId * Manifest) :=
  filter (fun n => negb (String.eqb (kind (snd n)) "SecretProviderClass")) (manifests c).

(** The target of a routing rule and of a service: name and port. *)
Definition ruleTarget (r : HTTPIngressPath) : string * Z :=
  (backend_service r, backend_port r).

Definition serviceTargets (s : Service) : list (string * Z) :=
  map (fun p => (name (svc_metadata s), svc_port p)) (svc_ports s).

(** The container ports a deployment opens. *)
Definition openPorts (d : Deployment) : list Z :=
  flat_map containerPorts (containers (template_spec d)).

End Inspect.

(** ** More sample inputs *)

Module Sample2.

(** The sample platform reading five other secrets and another database
    credential; VPC and database endpoint are the same. *)
Definition other (s : Cdk.Secret) : Cdk.Secret :=
  Cdk.mkSecret (Cdk.secretName s) (Cdk.secretArn s ++ "-v2").

Definition otherSecrets : LegendPlatform.LegendPlatformProps :=
  LegendPlatform.mkProps (LegendPlatform.vpc Sample.props)
    (other (LegendPlatform.domainNameSecret Sample.props))
    (other (LegendPlatform.certificateArnSecret Sample.props))
    (other (LegendPlatform.gitlabAppIdSecret Sample.props))
    (other (LegendPlatform.gitlabAppSecret Sample.props))
    (other (LegendPlatform.grafanaAdminSecret Sample.props))
    (Cdk.mkDatabaseCluster
       (option_map other (Cdk.secret (LegendPlatform.docdbCluster Sample.props)))
       (Cdk.clusterEndpoint (LegendPlatform.docdbCluster Sample.props))).

(** A cluster that already holds a manifest and an edge. *)
Definition occupied : Graph.Cluster :=
  Graph.mkCluster
    [ ("Monitoring", K8s.NamespaceM (K8s.mkMeta "monitoring" None [])) ]
    [ ("Monitoring", "Monitoring") ].

End Sample2.

(** * Properties *)

Import Graph K8s Read.

(** ** The constructs on the sample configuration *)

Example toString_port : Js.toString 27017 = "27017".
Proof. reflexivity. Qed.

Example toString_numbers :
  Js.toString 0 = "0"
  /\ Js.toString (-5) = "-5"
  /\ Js.toString (2 ^ 53 + 1) = "9007199254740992"
  /\ Js.toString (2 ^ 64) = "18446744073709552000"
  /\ Js.toString 999999999999999999999 = "1e+21"
  /\ Js.toString (2 ^ 70) = "1.1805916207174113e+21"
  /\ Js.toString (10 ^ 23) = "1e+23"
  /\ Js.toString ((2 ^ 53 - 1) * 2 ^ 971) = "1.7976931348623157e+308"
  /\ Js.toString (2 ^ 1024) = "Infinity".
Proof. repeat split; vm_compute; reflexivity. Qed.

Example truthy_empty : Js.truthy (Some "") = false /\ Js.truthy (Some "password") = true.
Proof. split; reflexivity. Qed.

Example stem_engine :
  Routing.stem "/engine/*" = "/engine/" /\ Routing.stem "/engine" = "/engine".
Proof. split; reflexivity. Qed.

Example sample_arn :
  Cdk.secretArn (LegendPlatform.domainNameSecret Sample.props)
  = "arn:aws:secretsmanager:eu-west-1:123456789012:secret:legend/domainName".
Proof. reflexivity. Qed.

Example sample_returns : Run.outcome Sample.props = Returned tt.
Proof. vm_compute. reflexivity. Qed.

Example sample_throws :
  Run.outcome Sample.propsWithoutSecret = Thrown LegendPlatform.noMasterSecret.
Proof. vm_compute. reflexivity. Qed.

Example sample_names :
  map fst (manifests (Run.graph Sample.props)) = Input.nodeNames
  /\ map fst (manifests (Run.graph Sample.propsWithoutSecret))
     = firstn 6 Input.nodeNames.
Proof. split; vm_compute; reflexivity. Qed.

Example sample_domain_binding :
  lookup (Run.graph Sample.props) "SecretProviderClass-domain-spc"
  = Some (SecretProviderClassM
            (mkSpc (mkMeta "domain-spc" (Some "legend") []) "aws"
               [ mkSpcObject
                   "arn:aws:secretsmanager:eu-west-1:123456789012:secret:legend/domainName"
                   "secretsmanager" [ mkJmes "." "LEGEND_DOMAIN" ] ]
               [ mkSecretObject "legend-domain-secret" "Opaque"
                   [ mkData "LEGEND_DOMAIN" "LEGEND_DOMAIN" ] ])).
Proof. vm_compute. reflexivity. Qed.

Example sample_docdb_binding :
  lookup (Run.graph Sample.props) "SecretProviderClass-docdb-spc"
  = Some (SecretProviderClassM
            (mkSpc (mkMeta "docdb-spc" (Some "legend") []) "aws"
               [ mkSpcObject
                   "arn:aws:secretsmanager:eu-west-1:123456789012:secret:LegendDocDBClusterSecret"
                   "secretsmanager"
                   [ mkJmes "password" "DOCDB_PASSWORD"; mkJmes "username" "DOCDB_USERNAME" ] ]
               [ mkSecretObject "legend-docdb-secret" "Opaque"
                   [ mkData "DOCDB_PASSWORD" "DOCDB_PASSWORD";
                     mkData "DOCDB_USERNAME" "DOCDB_USERNAME" ] ])).
Proof. vm_compute. reflexivity. Qed.

Example sample_service :
  lookup (Run.graph Sample.props) "legend-depot-svc"
  = Some (ServiceM (mkService (mkMeta "legend-depot" (Some "legend") [])
                      [("app", "legend-depot")] [mkServicePort 6200 6200] "ClusterIP")).
Proof. vm_compute. reflexivity. Qed.

Example sample_prerequisites :
  prerequisites (Run.graph Sample.props) "legend-query-deploy"
  = Checkpoint.workloadPrerequisites
  /\ prerequisites (Run.graph Sample.props) "legend-query-svc" = ["legend-query-deploy"]
  /\ prerequisites (Run.graph Sample.props) "LegendNetworkPolicy" = ["LegendIngress"].
Proof. repeat split; vm_compute; reflexivity. Qed.

(** ** Running the constructor *)

Section Assemble.

Variable env : Cdk.DatabaseCluster -> list EnvVar.
Variable routes : list HTTPIngressPath.

Lemma assemble_without_secret props :
  Cdk.secret (LegendPlatform.docdbCluster props) = None ->
  LegendPlatform.assemble env routes props newCluster
  = (Thrown LegendPlatform.noMasterSecret, mkCluster (Checkpoint.preamble props) []).
Proof.
  intros Hnone. unfold LegendPlatform.assemble, bind.
  cbn [LegendPlatform.createSecretProviderClass addManifest manifests dependencies].
  rewrite Hnone. reflexivity.
Qed.

(** With a secret the constructor runs to its end, whatever tables it is
    given: nothing else in it can throw. *)
Lemma assemble_with_secret props s :
  Cdk.secret (LegendPlatform.docdbCluster props) = Some s ->
  LegendPlatform.assemble env routes props newCluster
  = (Returned tt, Checkpoint.complete env routes props s).
Proof.
  intros Hsome. unfold LegendPlatform.assemble, bind.
  cbn [LegendPlatform.createSecretProviderClass addManifest manifests dependencies].
  rewrite Hsome. reflexivity.
Qed.

End Assemble.

(** ** Reading the completed graph *)

Lemma returned_complete props :
  Run.outcome props = Returned tt ->
  exists s, Cdk.secret (LegendPlatform.docdbCluster props) = Some s
            /\ Run.graph props
               = Checkpoint.complete LegendPlatform.commonEnv LegendPlatform.ingressPaths
                   props s.
Proof.
  unfold Run.outcome, Run.graph, LegendPlatform.constructor. intros Hret.
  destruct (Cdk.secret (LegendPlatform.docdbCluster props)) as [s|] eqn:Hsecret.
  - exists s. split; [reflexivity|].
    rewrite (assemble_with_secret _ _ props s Hsecret). reflexivity.
  - rewrite (assemble_without_secret _ _ props Hsecret) in Hret.
    discriminate Hret.
Qed.

Section Complete.

Variable env : Cdk.DatabaseCluster -> list EnvVar.
Variable routes : list HTTPIngressPath.
Variable props : LegendPlatform.LegendPlatformProps.
Variable s : Cdk.Secret.

Let g := Checkpoint.complete env routes props s.

Lemma complete_deployments :
  deploymentsOf g
  = map (fun comp =>
           (Checkpoint.deployNode comp,
            LegendPlatform.makeDeployment LegendPlatform.namespace
              (env (LegendPlatform.docdbCluster props))
              (LegendPlatform.comp_name comp) (LegendPlatform.comp_image comp)
              (LegendPlatform.comp_port comp)))
        LegendPlatform.components.
Proof. reflexivity. Qed.

Lemma complete_bindings :
  secretProviderClassesOf g
  = secretProviderClassesOf
      (mkCluster (Checkpoint.preamble props ++ [Checkpoint.docdbBinding s]) []).
Proof. reflexivity. Qed.

Lemma complete_routingTable : routingTable g = routes.
Proof. subst g. cbn. repeat rewrite app_nil_r. reflexivity. Qed.

Lemma complete_names : map fst (manifests g) = Input.nodeNames.
Proof. reflexivity. Qed.

Lemma complete_dependencies :
  dependencies g
  = flat_map Checkpoint.workloadEdges LegendPlatform.components
    ++ [ ("LegendNetworkPolicy", "LegendIngress") ].
Proof. reflexivity. Qed.

End Complete.

(** Enumerate the members of a list given by its elements. *)
Ltac members H :=
  cbn [In] in H;
  repeat (destruct H as [H|H]; [ inversion H; clear H; subst | ]);
  try contradiction.

(** ** Lists, edges and names *)

Lemma flat_map_concat {A B} (f : A -> list B) (l : list A) :
  flat_map f l = concat (map f l).
Proof. induction l as [|a l IH]; [reflexivity|]. cbn. rewrite IH. reflexivity. Qed.

Lemma pairwise_nth {A} (r : A -> A -> bool) (l : list A) :
  Routing.pairwise r l = true ->
  forall i j a b, i <> j -> nth_error l i = Some a -> nth_error l j = Some b ->
    r a b = true.
Proof.
  induction l as [|x rest IH]; intros Hp i j a b Hij Hi Hj.
  - destruct i; discriminate Hi.
  - cbn [Routing.pairwise] in Hp. apply andb_true_iff in Hp. destruct Hp as [Hx Hrest].
    rewrite forallb_forall in Hx.
    destruct i as [|i], j as [|j]; cbn [nth_error] in Hi, Hj.
    + contradiction Hij; reflexivity.
    + inversion Hi; subst. apply nth_error_In in Hj.
      specialize (Hx b Hj). apply andb_true_iff in Hx. tauto.
    + inversion Hj; subst. apply nth_error_In in Hi.
      specialize (Hx a Hi). apply andb_true_iff in Hx. tauto.
    + apply (IH Hrest i j); auto.
Qed.

Lemma edgeb_edge c dependent prerequisite :
  Edges.edgeb c dependent prerequisite = true <-> Edges.edge c dependent prerequisite.
Proof.
  unfold Edges.edgeb, Edges.edge. rewrite existsb_exists. split.
  - intros ([d p] & Hin & Heq). cbn [fst snd] in Heq.
    apply andb_true_iff in Heq. destruct Heq as [Hd Hp].
    apply String.eqb_eq in Hd. apply String.eqb_eq in Hp. subst. exact Hin.
  - intros Hin. exists (dependent, prerequisite). split; [exact Hin|].
    cbn [fst snd]. rewrite !String.eqb_refl. reflexivity.
Qed.

Lemma lookup_registered c node m :
  lookup c node = Some m -> In node (map fst (manifests c)).
Proof.
  unfold lookup.
  destruct (find (fun n => String.eqb (fst n) node) (manifests c)) as [[id m']|] eqn:Hfind;
    [|discriminate].
  intros _. apply find_some in Hfind. destruct Hfind as [Hin Heq].
  cbn [fst] in Heq. apply String.eqb_eq in Heq. subst id.
  apply in_map_iff. exists (node, m'). split; [reflexivity | exact Hin].
Qed.

(** An edge test that holds only between registered nodes, and that is
    declared for every pair of node names, is declared wherever it holds. *)
Lemma edges_by_names (test : Cluster -> NodeId -> NodeId -> bool) c :
  (forall d p, test c d p = true -> lookup c d <> None /\ lookup c p <> None) ->
  forallb (fun d => forallb (fun p => implb (test c d p) (Edges.edgeb c d p))
                            (map fst (manifests c)))
          (map fst (manifests c)) = true ->
  forall d p, test c d p = true -> Edges.edge c d p.
Proof.
  intros Hreg Hall d p Htest. apply edgeb_edge.
  destruct (Hreg d p Htest) as [Hd Hp].
  destruct (lookup c d) as [md|] eqn:Ed; [|contradiction Hd; reflexivity].
  destruct (lookup c p) as [mp|] eqn:Ep; [|contradiction Hp; reflexivity].
  apply lookup_registered in Ed. apply lookup_registered in Ep.
  rewrite forallb_forall in Hall. specialize (Hall d Ed).
  rewrite forallb_forall in Hall. specialize (Hall p Ep).
  rewrite Htest in Hall. exact Hall.
Qed.

Ltac registered_both test :=
  let d := fresh "d" in let p := fresh "p" in let H := fresh "H" in
  intros d p H; unfold test in H;
  destruct (lookup _ p) as [[]|]; try discriminate H;
  destruct (lookup _ d) as [[]|]; try discriminate H;
  split; discriminate.

Lemma nodup_names (l : list string) : nodup string_dec l = l -> NoDup l.
Proof. intros H. rewrite <- H. apply NoDup_nodup. Qed.

(** ** Field maps of the completed graph *)

Section Bindings.

Variable env : Cdk.DatabaseCluster -> list EnvVar.
Variable routes : list HTTPIngressPath.
Variable props : LegendPlatform.LegendPlatformProps.
Variable s : Cdk.Secret.

(** The field maps of the six bindings of a completed graph, binding by
    binding. *)
Lemma complete_fieldMaps :
  map (fun b => fieldMap (snd b))
      (secretProviderClassesOf (Checkpoint.complete env routes props s))
  = [ [ mkEntry "legend-domain-secret" "LEGEND_DOMAIN"
          (Cdk.secretArn (LegendPlatform.domainNameSecret props)) "." ];
      [ mkEntry "legend-certificate-secret" "LEGEND_CERT_ARN"
          (Cdk.secretArn (LegendPlatform.certificateArnSecret props)) "." ];
      [ mkEntry "legend-gitlab-id-secret" "GITLAB_APP_ID"
          (Cdk.secretArn (LegendPlatform.gitlabAppIdSecret props)) "." ];
      [ mkEntry "legend-gitlab-secret" "GITLAB_APP_SECRET"
          (Cdk.secretArn (LegendPlatform.gitlabAppSecret props)) "." ];
      [ mkEntry "legend-grafana-secret" "GRAFANA_ADMIN_PASSWORD"
          (Cdk.secretArn (LegendPlatform.grafanaAdminSecret props)) "." ];
      [ mkEntry "legend-docdb-secret" "DOCDB_PASSWORD" (Cdk.secretArn s) "password";
        mkEntry "legend-docdb-secret" "DOCDB_USERNAME" (Cdk.secretArn s) "username" ] ].
Proof. reflexivity. Qed.

(** No two entries of the graph write the same synced secret from
    different records. *)
Lemma complete_no_merging e1 e2 :
  let entries := flat_map (fun b => fieldMap (snd b))
                   (secretProviderClassesOf (Checkpoint.complete env routes props s)) in
  In e1 entries -> In e2 entries ->
  targetSecretName e1 = targetSecretName e2 -> sourceRecord e1 = sourceRecord e2.
Proof.
  cbv zeta. rewrite flat_map_concat, complete_fieldMaps. cbn [concat app].
  intros H1 H2. members H1; members H2; cbn; intros Heq;
    first [ reflexivity | discriminate Heq ].
Qed.

End Bindings.

Lemma nodup_pairs (l : list (string * string)) : nodup Decide.pair_dec l = l -> NoDup l.
Proof. intros H. rewrite <- H. apply NoDup_nodup. Qed.

(** ** Registering a binding *)

Lemma createSecretProviderClass_free
    idSuffix ns arn target key property alternate alternateKey c :
  registered c ("SecretProviderClass-" ++ idSuffix) = false ->
  LegendPlatform.createSecretProviderClass idSuffix ns arn target key
    property alternate alternateKey c
  = (Returned ("SecretProviderClass-" ++ idSuffix)%string,
     mkCluster (manifests c
                ++ [(("SecretProviderClass-" ++ idSuffix)%string,
                     SecretProviderClassM
                       (LegendPlatform.spcDef idSuffix ns arn target key
                          property alternate alternateKey))])
               (dependencies c)).
Proof.
  intros Hfree. unfold LegendPlatform.createSecretProviderClass, addManifest.
  rewrite Hfree. reflexivity.
Qed.

Lemma createSecretProviderClass_taken
    idSuffix ns arn target key property alternate alternateKey c :
  registered c ("SecretProviderClass-" ++ idSuffix) = true ->
  LegendPlatform.createSecretProviderClass idSuffix ns arn target key
    property alternate alternateKey c
  = (Thrown (alreadyRegistered ("SecretProviderClass-" ++ idSuffix)), c).
Proof.
  intros Htaken. unfold LegendPlatform.createSecretProviderClass, addManifest.
  rewrite Htaken. reflexivity.
Qed.

(** ** C1: the declared dependency edges *)

(** C1, as stated, fails on both counts. The secret bindings, the services,
    the ingress and the network policy are placed in the namespace and have
    no edge to the namespace node; the bindings and the ingress have no
    prerequisite at all. And an edge is declared that is none of the three
    kinds: each service depends on its deployment. *)
Lemma declared_edges_differ :
  filter (fun n => Edges.namespaceEdge (Run.graph Sample.props) n "LegendNamespace"
                   && negb (Edges.edgeb (Run.graph Sample.props) n "LegendNamespace"))
         (map fst (manifests (Run.graph Sample.props)))
  = [ "SecretProviderClass-domain-spc"; "SecretProviderClass-cert-spc";
      "SecretProviderClass-gitlab-id-spc"; "SecretProviderClass-gitlab-secret-spc";
      "SecretProviderClass-grafana-spc"; "SecretProviderClass-docdb-spc";
      "legend-engine-svc"; "legend-sdlc-svc"; "legend-studio-svc"; "legend-query-svc";
      "legend-pure-ide-svc"; "legend-depot-svc"; "legend-depot-store-svc";
      "LegendIngress"; "LegendNetworkPolicy" ]
  /\ prerequisites (Run.graph Sample.props) "SecretProviderClass-domain-spc" = []
  /\ prerequisites (Run.graph Sample.props) "LegendIngress" = []
  /\ ~ Edges.declaresDesignEdges (Run.graph Sample.props)
  /\ Edges.edgeb (Run.graph Sample.props) "legend-engine-svc" "legend-engine-deploy" = true
  /\ Edges.designEdge (Run.graph Sample.props) "legend-engine-svc" "legend-engine-deploy"
     = false
  /\ ~ Edges.declaresOnlyDesignEdges (Run.graph Sample.props).
Proof.
  split; [ vm_compute; reflexivity | ].
  split; [ vm_compute; reflexivity | ].
  split; [ vm_compute; reflexivity | ].
  split.
  { intros Hall.
    specialize (Hall "SecretProviderClass-domain-spc" "LegendNamespace" eq_refl).
    apply edgeb_edge in Hall. vm_compute in Hall. discriminate Hall. }
  split; [ vm_compute; reflexivity | ].
  split; [ vm_compute; reflexivity | ].
  intros Honly.
  assert (He : Edges.edge (Run.graph Sample.props) "legend-engine-svc" "legend-engine-deploy").
  { apply edgeb_edge. vm_compute. reflexivity. }
  specialize (Honly _ _ He). vm_compute in Honly. discriminate Honly.
Qed.

(** C1, amended. The declared edges include the namespace before every
    workload deployment, every secret binding before every deployment that
    mounts it, every deployment before the service of the same name, and the
    ingress before the network policy. A deployment's prerequisites are
    exactly the namespace node and the binding nodes; a service's only
    prerequisite is its deployment, through which the namespace precedes it;
    and every declared edge is a namespace, binding, routing or
    deployment-to-service edge. *)
Theorem declared_edges props :
  Run.outcome props = Returned tt ->
  let g := Run.graph props in
  (forall d p, Edges.namespaceEdge g d p = true -> Edges.isDeployment g d = true ->
               Edges.edge g d p)
  /\ (forall d p, Edges.bindingEdge g d p = true -> Edges.edge g d p)
  /\ (forall d p, Edges.serviceEdge g d p = true -> Edges.edge g d p)
  /\ (forall d p, Edges.routingEdge g d p = true -> Edges.edge g d p)
  /\ (forall d p, Edges.edge g d p ->
                  Edges.designEdge g d p || Edges.serviceEdge g d p = true)
  /\ (forall id d, In (id, d) (deploymentsOf g) ->
        prerequisites g id
        = nodesOfKind "Namespace" g ++ nodesOfKind "SecretProviderClass" g)
  /\ (forall id, In id (nodesOfKind "Service" g) ->
        exists dpl, prerequisites g id = [dpl]
                    /\ Edges.serviceEdge g id dpl = true
                    /\ Edges.namespaceEdge g dpl "LegendNamespace" = true
                    /\ Edges.edge g dpl "LegendNamespace").
Proof.
  intros Hret g. subst g.
  destruct (returned_complete props Hret) as (ms & _ & Hg). rewrite Hg.
  set (g := Checkpoint.complete _ _ props ms).
  repeat apply conj.
  - intros d p Hns Hdpl.
    apply (edges_by_names
             (fun c d p => Edges.namespaceEdge c d p && Edges.isDeployment c d) g).
    + intros d' p' H. apply andb_true_iff in H. destruct H as [H _]. revert d' p' H.
      registered_both Edges.namespaceEdge.
    + vm_compute. reflexivity.
    + rewrite Hns, Hdpl. reflexivity.
  - apply (edges_by_names Edges.bindingEdge g).
    + registered_both Edges.bindingEdge.
    + vm_compute. reflexivity.
  - apply (edges_by_names Edges.serviceEdge g).
    + registered_both Edges.serviceEdge.
    + vm_compute. reflexivity.
  - apply (edges_by_names Edges.routingEdge g).
    + registered_both Edges.routingEdge.
    + vm_compute. reflexivity.
  - intros d p He.
    assert (Hall : forallb (fun e => Edges.designEdge g (fst e) (snd e)
                                     || Edges.serviceEdge g (fst e) (snd e))
                           (dependencies g) = true) by (vm_compute; reflexivity).
    rewrite forallb_forall in Hall. exact (Hall (d, p) He).
  - intros id d Hd. subst g. rewrite complete_deployments in Hd.
    members Hd; reflexivity.
  - intros id Hid. members Hid; eexists; repeat apply conj;
      try reflexivity; apply edgeb_edge; vm_compute; reflexivity.
Qed.

Lemma declared_edges_witness :
  Edges.edge (Run.graph Sample.props) "legend-depot-deploy" "LegendNamespace"
  /\ Edges.edge (Run.graph Sample.props) "legend-depot-deploy" "SecretProviderClass-cert-spc"
  /\ Edges.edge (Run.graph Sample.props) "legend-depot-svc" "legend-depot-deploy"
  /\ Edges.edge (Run.graph Sample.props) "LegendNetworkPolicy" "LegendIngress".
Proof.
  destruct (declared_edges Sample.props eq_refl) as (Hns & Hb & Hs & Hr & _).
  repeat apply conj.
  - apply Hns; reflexivity.
  - apply Hb; reflexivity.
  - apply Hs; reflexivity.
  - apply Hr; reflexivity.
Defined.

(** ** C2: six records, six bindings *)

Example sample_records :
  map Cdk.secretName (firstn 5 (Input.records Sample.props))
  = map LegendSecretsStack.secretName
        (LegendSecretsStack.secrets LegendSecretsStack.constructor)
  /\ NoDup (map Cdk.secretArn (Input.records Sample.props)).
Proof. split; [ reflexivity | apply nodup_names; vm_compute; reflexivity ]. Qed.

(** C2. The secrets stack declares five records under five distinct names,
    and a configuration on which the platform is built hands it six records:
    these five values and the generated database credential. The built graph
    holds six bindings; each reads exactly one record, the six of them in
    order, and writes exactly one synced secret, under six pairwise distinct
    names. No two field-map entries of the graph write the same synced secret
    from different records; five bindings have one entry and the database
    binding has two, both over the one database record. *)
Theorem six_records_six_bindings props :
  Run.outcome props = Returned tt ->
  let bindings := map snd (secretProviderClassesOf (Run.graph props)) in
  let entries := flat_map fieldMap bindings in
  length (LegendSecretsStack.secrets LegendSecretsStack.constructor) = 5
  /\ NoDup (map LegendSecretsStack.secretName
                (LegendSecretsStack.secrets LegendSecretsStack.constructor))
  /\ length (Input.records props) = 6
  /\ length bindings = 6
  /\ map (fun s => map objectName (objects s)) bindings
     = map (fun r => [Cdk.secretArn r]) (Input.records props)
  /\ map (fun s => map secretName (secretObjects s)) bindings
     = [ ["legend-domain-secret"]; ["legend-certificate-secret"];
         ["legend-gitlab-id-secret"]; ["legend-gitlab-secret"];
         ["legend-grafana-secret"]; ["legend-docdb-secret"] ]
  /\ NoDup (flat_map (fun s => map secretName (secretObjects s)) bindings)
  /\ (forall e1 e2, In e1 entries -> In e2 entries ->
        targetSecretName e1 = targetSecretName e2 -> sourceRecord e1 = sourceRecord e2)
  /\ map (fun s => length (fieldMap s)) bindings = [1; 1; 1; 1; 1; 2]
  /\ map (fun s => map sourceRecord (fieldMap s)) bindings
     = map (fun r => [Cdk.secretArn r]) (firstn 5 (Input.records props))
       ++ map (fun r => [Cdk.secretArn r; Cdk.secretArn r]) (skipn 5 (Input.records props)).
Proof.
  intros Hret. cbv zeta.
  destruct (returned_complete props Hret) as (ms & Hsome & Hg). rewrite Hg.
  unfold Input.records. rewrite Hsome.
  split; [reflexivity|].
  split; [apply nodup_names; vm_compute; reflexivity|].
  split; [reflexivity|].
  split; [reflexivity|].
  split; [reflexivity|].
  split; [reflexivity|].
  split; [apply nodup_names; vm_compute; reflexivity|].
  split.
  { intros e1 e2 H1 H2.
    apply (complete_no_merging LegendPlatform.commonEnv LegendPlatform.ingressPaths
             props ms); [ exact H1 | exact H2 ]. }
  split; reflexivity.
Qed.

Lemma six_records_six_bindings_witness :
  length (Input.records Sample.props) = 6
  /\ length (map snd (secretProviderClassesOf (Run.graph Sample.props))) = 6.
Proof.
  destruct (six_records_six_bindings Sample.props eq_refl)
    as (_ & _ & Hrecords & Hbindings & _).
  split; [ exact Hrecords | exact Hbindings ].
Defined.

(** ** C3: the field map of a binding *)

(** C3. On a cluster where its id is free, a binding created without a
    property (the optional parameters absent or empty) has one field-map
    entry, which maps the entire value, path [.], to the one target key. A
    binding created with a property, an alternate property and an alternate
    key other than the first key has two entries, one per property, under
    the two keys. On a cluster where the id is taken the call throws and no
    binding is made. In the built graph the five single-value bindings are of
    the first form and the database binding of the second, reading
    [password] and [username] into two distinct keys; over the whole graph no
    synced secret receives the same key twice. *)
Theorem binding_field_maps :
  (forall idSuffix ns arn target key property alternate alternateKey c,
     registered c ("SecretProviderClass-" ++ idSuffix) = false ->
     Js.truthy property = false ->
     Js.truthy alternate && Js.truthy alternateKey = false ->
     exists b,
       LegendPlatform.createSecretProviderClass idSuffix ns arn target key
         property alternate alternateKey c
       = (Returned ("SecretProviderClass-" ++ idSuffix)%string,
          mkCluster (manifests c
                     ++ [(("SecretProviderClass-" ++ idSuffix)%string,
                          SecretProviderClassM b)])
                    (dependencies c))
       /\ fieldMap b = [ mkEntry target key arn "." ])
  /\ (forall idSuffix ns arn target key property alternate alternateKey c,
        registered c ("SecretProviderClass-" ++ idSuffix) = false ->
        Js.truthy (Some property) = true ->
        Js.truthy (Some alternate) = true ->
        Js.truthy (Some alternateKey) = true ->
        alternateKey <> key ->
        exists b,
          LegendPlatform.createSecretProviderClass idSuffix ns arn target key
            (Some property) (Some alternate) (Some alternateKey) c
          = (Returned ("SecretProviderClass-" ++ idSuffix)%string,
             mkCluster (manifests c
                        ++ [(("SecretProviderClass-" ++ idSuffix)%string,
                             SecretProviderClassM b)])
                       (dependencies c))
          /\ fieldMap b = [ mkEntry target key arn property;
                            mkEntry target alternateKey arn alternate ])
  /\ (forall idSuffix ns arn target key property alternate alternateKey c,
        registered c ("SecretProviderClass-" ++ idSuffix) = true ->
        LegendPlatform.createSecretProviderClass idSuffix ns arn target key
          property alternate alternateKey c
        = (Thrown (alreadyRegistered ("SecretProviderClass-" ++ idSuffix)), c))
  /\ (forall props, Run.outcome props = Returned tt ->
        exists s, Cdk.secret (LegendPlatform.docdbCluster props) = Some s
        /\ map (fun b => fieldMap (snd b)) (secretProviderClassesOf (Run.graph props))
           = [ [ mkEntry "legend-domain-secret" "LEGEND_DOMAIN"
                   (Cdk.secretArn (LegendPlatform.domainNameSecret props)) "." ];
               [ mkEntry "legend-certificate-secret" "LEGEND_CERT_ARN"
                   (Cdk.secretArn (LegendPlatform.certificateArnSecret props)) "." ];
               [ mkEntry "legend-gitlab-id-secret" "GITLAB_APP_ID"
                   (Cdk.secretArn (LegendPlatform.gitlabAppIdSecret props)) "." ];
               [ mkEntry "legend-gitlab-secret" "GITLAB_APP_SECRET"
                   (Cdk.secretArn (LegendPlatform.gitlabAppSecret props)) "." ];
               [ mkEntry "legend-grafana-secret" "GRAFANA_ADMIN_PASSWORD"
                   (Cdk.secretArn (LegendPlatform.grafanaAdminSecret props)) "." ];
               [ mkEntry "legend-docdb-secret" "DOCDB_PASSWORD" (Cdk.secretArn s) "password";
                 mkEntry "legend-docdb-secret" "DOCDB_USERNAME" (Cdk.secretArn s)
                         "username" ] ]
        /\ NoDup (map (fun e => (targetSecretName e, targetKey e))
                      (flat_map (fun b => fieldMap (snd b))
                                (secretProviderClassesOf (Run.graph props))))).
Proof.
  repeat apply conj.
  - intros idSuffix ns arn target key property alternate alternateKey c Hfree Hp Ha.
    eexists. split; [apply createSecretProviderClass_free; exact Hfree|].
    unfold LegendPlatform.spcDef, LegendPlatform.jmesPath.
    assert (Hone : (match property with
                    | Some (String _ _ as p) => [mkJmes p key]
                    | _ => [mkJmes "." key]
                    end) = [mkJmes "." key]).
    { destruct property as [[|a p]|]; [reflexivity | discriminate Hp | reflexivity]. }
    rewrite Hone.
    assert (Hnone : (match alternate, alternateKey with
                     | Some (String _ _ as p), Some (String _ _ as k) =>
                         [mkJmes "." key] ++ [mkJmes p k]
                     | _, _ => [mkJmes "." key]
                     end) = [mkJmes "." key]).
    { destruct alternate as [[|a p]|]; try reflexivity.
      destruct alternateKey as [[|b k]|]; try reflexivity. discriminate Ha. }
    rewrite Hnone. unfold fieldMap. cbn. rewrite String.eqb_refl. reflexivity.
  - intros idSuffix ns arn target key property alternate alternateKey c Hfree
      Hp Ha Hk Hneq.
    eexists. split; [apply createSecretProviderClass_free; exact Hfree|].
    unfold LegendPlatform.spcDef, LegendPlatform.jmesPath.
    destruct property as [|a1 p1]; [discriminate Hp|].
    destruct alternate as [|a2 p2]; [discriminate Ha|].
    destruct alternateKey as [|a3 p3]; [discriminate Hk|].
    unfold fieldMap. cbn [secretObjects data objects flat_map map app K8s.jmesPath
      objectAlias data_objectName secretName objectName path K8s.key].
    rewrite !String.eqb_refl.
    apply String.eqb_neq in Hneq. rewrite Hneq.
    rewrite String.eqb_sym in Hneq. rewrite Hneq. reflexivity.
  - intros idSuffix ns arn target key property alternate alternateKey c Htaken.
    apply createSecretProviderClass_taken. exact Htaken.
  - intros props Hret. destruct (returned_complete props Hret) as (ms & Hsome & Hg).
    exists ms. split; [exact Hsome|]. rewrite Hg. split.
    + apply complete_fieldMaps.
    + rewrite flat_map_concat, complete_fieldMaps. cbn [concat app map].
      apply nodup_pairs; vm_compute; reflexivity.
Qed.

Lemma binding_field_maps_witness :
  (exists b,
     LegendPlatform.createSecretProviderClass "domain-spc" "legend"
       "arn:aws:secretsmanager:eu-west-1:123456789012:secret:legend/domainName"
       "legend-domain-secret" "LEGEND_DOMAIN" None None None newCluster
     = (Returned "SecretProviderClass-domain-spc",
        mkCluster [("SecretProviderClass-domain-spc", SecretProviderClassM b)] [])
     /\ fieldMap b
        = [ mkEntry "legend-domain-secret" "LEGEND_DOMAIN"
              "arn:aws:secretsmanager:eu-west-1:123456789012:secret:legend/domainName"
              "." ])
  /\ (exists b,
        LegendPlatform.createSecretProviderClass "docdb-spc" "legend"
          "arn:aws:secretsmanager:eu-west-1:123456789012:secret:LegendDocDBClusterSecret"
          "legend-docdb-secret" "DOCDB_PASSWORD"
          (Some "password") (Some "username") (Some "DOCDB_USERNAME") newCluster
        = (Returned "SecretProviderClass-docdb-spc",
           mkCluster [("SecretProviderClass-docdb-spc", SecretProviderClassM b)] [])
        /\ fieldMap b
           = [ mkEntry "legend-docdb-secret" "DOCDB_PASSWORD"
                 "arn:aws:secretsmanager:eu-west-1:123456789012:secret:LegendDocDBClusterSecret"
                 "password";
               mkEntry "legend-docdb-secret" "DOCDB_USERNAME"
                 "arn:aws:secretsmanager:eu-west-1:123456789012:secret:LegendDocDBClusterSecret"
                 "username" ])
  /\ LegendPlatform.createSecretProviderClass "domain-spc" "legend" "arn"
       "legend-domain-secret" "LEGEND_DOMAIN" None None None (Run.graph Sample.props)
     = (Thrown (alreadyRegistered "SecretProviderClass-domain-spc"), Run.graph Sample.props)
  /\ exists s, Cdk.secret (LegendPlatform.docdbCluster Sample.props) = Some s.
Proof.
  destruct binding_field_maps as (Hone & Htwo & Htaken & Hgraph).
  repeat apply conj.
  - apply (Hone "domain-spc" "legend" _ "legend-domain-secret" "LEGEND_DOMAIN"
             None None None newCluster); reflexivity.
  - apply (Htwo "docdb-spc" "legend" _ "legend-docdb-secret" "DOCDB_PASSWORD"
             "password" "username" "DOCDB_USERNAME" newCluster);
      try reflexivity; discriminate.
  - apply Htaken. vm_compute. reflexivity.
  - destruct (Hgraph Sample.props eq_refl) as (s & Hs & _). exists s. exact Hs.
Defined.

(** ** C6: the missing database credential *)

(** C6. When the database cluster exposes no credential secret the
    constructor throws. At that point it has registered the namespace and
    the five single-value bindings and nothing else: no binding for the
    database credential, no workload manifest, no edge. With a credential
    secret it returns, and the database binding and the workloads are in the
    graph. *)
Theorem missing_credential_is_fatal props :
  (Cdk.secret (LegendPlatform.docdbCluster props) = None ->
     Run.outcome props = Thrown LegendPlatform.noMasterSecret
     /\ manifests (Run.graph props) = Checkpoint.preamble props
     /\ dependencies (Run.graph props) = []
     /\ lookup (Run.graph props) "SecretProviderClass-docdb-spc" = None
     /\ deploymentsOf (Run.graph props) = []
     /\ forall n, In n (manifests (Run.graph props)) ->
          kind (snd n) = "Namespace" \/ kind (snd n) = "SecretProviderClass")
  /\ (forall s, Cdk.secret (LegendPlatform.docdbCluster props) = Some s ->
        Run.outcome props = Returned tt
        /\ lookup (Run.graph props) "SecretProviderClass-docdb-spc"
           = Some (snd (Checkpoint.docdbBinding s))
        /\ map fst (deploymentsOf (Run.graph props))
           = map Checkpoint.deployNode LegendPlatform.components).
Proof.
  split.
  - intros Hnone.
    pose proof (assemble_without_secret LegendPlatform.commonEnv
                  LegendPlatform.ingressPaths props Hnone) as Hrun.
    unfold Run.outcome, Run.graph, LegendPlatform.constructor. rewrite Hrun.
    cbn [fst snd manifests dependencies newCluster app].
    repeat split.
    intros n Hn. unfold Checkpoint.preamble in Hn.
    repeat (destruct Hn as [Hn|Hn]; [ subst n; cbn; auto | ]). contradiction.
  - intros s Hsome.
    pose proof (assemble_with_secret LegendPlatform.commonEnv
                  LegendPlatform.ingressPaths props s Hsome) as Hrun.
    unfold Run.outcome, Run.graph, LegendPlatform.constructor. rewrite Hrun.
    repeat split.
Qed.

Lemma missing_credential_is_fatal_witness :
  Run.outcome Sample.propsWithoutSecret = Thrown LegendPlatform.noMasterSecret
  /\ Run.outcome Sample.props = Returned tt.
Proof.
  split.
  - apply (proj1 (missing_credential_is_fatal Sample.propsWithoutSecret)). reflexivity.
  - apply (proj2 (missing_credential_is_fatal Sample.props) Sample.masterSecret).
    reflexivity.
Defined.

(** ** C7: how environment variables get their values *)

(** C7, as stated, fails: in the graph of the sample configuration every
    deployment has variables that carry a literal value, the three database
    connection settings. *)
Lemma environment_has_literals :
  map (fun nd => Env.allIndirect (snd nd)) (deploymentsOf (Run.graph Sample.props))
  = repeat false 7
  /\ map (fun nd => Env.literals (snd nd)) (deploymentsOf (Run.graph Sample.props))
     = repeat [ ("DOCDB_HOST", "legend.cluster-abc.eu-west-1.docdb.amazonaws.com");
                ("DOCDB_PORT", "27017");
                ("DOCDB_NAME", "legend") ] 7.
Proof. split; vm_compute; reflexivity. Qed.

(** C7, amended. Every deployment has eight variables. The five that carry
    a sensitive value (domain, the two GitLab credentials, database user and
    password) are read through a secret name and key and carry no literal;
    the three database connection settings (host, port, database name) carry
    literals taken from the cluster endpoint and a constant, none of them
    from a secret record. No variable has both a literal and a reference. *)
Theorem environment_sources props :
  Run.outcome props = Returned tt ->
  forall id d, In (id, d) (deploymentsOf (Run.graph props)) ->
    length (envOf d) = 8
    /\ Env.references d
       = [ ("LEGEND_DOMAIN", mkSecretKeyRef "legend-domain-secret" "LEGEND_DOMAIN");
           ("GITLAB_APP_ID", mkSecretKeyRef "legend-gitlab-id-secret" "GITLAB_APP_ID");
           ("GITLAB_APP_SECRET", mkSecretKeyRef "legend-gitlab-secret" "GITLAB_APP_SECRET");
           ("DOCDB_USER", mkSecretKeyRef "legend-docdb-secret" "DOCDB_USERNAME");
           ("DOCDB_PASS", mkSecretKeyRef "legend-docdb-secret" "DOCDB_PASSWORD") ]
    /\ Env.literals d
       = [ ("DOCDB_HOST",
            Cdk.hostname (Cdk.clusterEndpoint (LegendPlatform.docdbCluster props)));
           ("DOCDB_PORT",
            Js.toString (Cdk.port (Cdk.clusterEndpoint (LegendPlatform.docdbCluster props))));
           ("DOCDB_NAME", "legend") ]
    /\ forall e, In e (envOf d) -> Env.isSecretRef e = negb (Env.isLiteral e).
Proof.
  intros Hret id d Hd.
  destruct (returned_complete props Hret) as (ms & _ & Hg). rewrite Hg in Hd.
  rewrite complete_deployments in Hd.
  apply in_map_iff in Hd. destruct Hd as (comp & Hd & _).
  inversion Hd; subst id d; clear Hd.
  split; [reflexivity|]. split; [reflexivity|]. split; [reflexivity|].
  intros e He. unfold envOf in He. cbn [LegendPlatform.makeDeployment template_spec
    containers flat_map env app LegendPlatform.commonEnv] in He.
  members He; reflexivity.
Qed.

Lemma environment_sources_witness :
  exists d, lookup (Run.graph Sample.props) "legend-engine-deploy" = Some (DeploymentM d)
            /\ length (envOf d) = 8
            /\ map fst (Env.literals d) = ["DOCDB_HOST"; "DOCDB_PORT"; "DOCDB_NAME"].
Proof.
  eexists. split; [ reflexivity | ].
  destruct (environment_sources Sample.props eq_refl "legend-engine-deploy" _
              (or_introl eq_refl)) as (H8 & _ & Hlit & _).
  split; [ exact H8 | rewrite Hlit; reflexivity ].
Defined.

(** ** C8: the routing table of the seven services *)

(** C8. The routing table of the built graph is the table of the seven
    services, and for every two distinct rules of it neither path is a
    string prefix of the other, with the wildcard and without it. *)
Theorem routing_prefixes_disjoint props :
  Run.outcome props = Returned tt ->
  routingTable (Run.graph props) = LegendPlatform.ingressPaths
  /\ length (routingTable (Run.graph props)) = 7
  /\ forall i j a b, i <> j ->
       nth_error (routingTable (Run.graph props)) i = Some a ->
       nth_error (routingTable (Run.graph props)) j = Some b ->
       String.prefix (http_path a) (http_path b) = false
       /\ String.prefix (http_path b) (http_path a) = false
       /\ String.prefix (Routing.stem (http_path a)) (Routing.stem (http_path b)) = false
       /\ String.prefix (Routing.stem (http_path b)) (Routing.stem (http_path a)) = false.
Proof.
  intros Hret. destruct (returned_complete props Hret) as (ms & _ & Hg). rewrite Hg.
  rewrite complete_routingTable.
  split; [reflexivity|]. split; [reflexivity|].
  intros i j a b Hij Hi Hj.
  assert (Hd : Routing.disjoint a b = true).
  { apply (pairwise_nth Routing.disjoint LegendPlatform.ingressPaths) with (i := i) (j := j);
      [ vm_compute; reflexivity | exact Hij | exact Hi | exact Hj ]. }
  unfold Routing.disjoint in Hd.
  repeat (apply andb_true_iff in Hd; destruct Hd as [Hd ?]).
  repeat split; apply negb_true_iff; assumption.
Qed.

Lemma routing_prefixes_disjoint_witness :
  String.prefix "/depot/*" "/depot-store/*" = false
  /\ String.prefix "/depot-store/*" "/depot/*" = false.
Proof.
  pose proof (proj2 (proj2 (routing_prefixes_disjoint Sample.props eq_refl))
                5 6 (mkPath "/depot/*" "Prefix" "legend-depot" 6200)
                (mkPath "/depot-store/*" "Prefix" "legend-depot-store" 6201)) as H.
  destruct H as (H1 & H2 & _).
  - discriminate.
  - reflexivity.
  - reflexivity.
  - split; [ exact H1 | exact H2 ].
Defined.

(** ** C10: every workload mounts every binding *)

(** C10. The graph holds seven workload deployments and six secret
    bindings. Every deployment mounts all six bindings, whatever the service
    uses, and its container receives the one shared environment list; the
    certificate and the Grafana bindings are mounted although no variable of
    any workload reads a key they sync. *)
Theorem every_workload_mounts_every_binding props :
  Run.outcome props = Returned tt ->
  length (deploymentsOf (Run.graph props)) = 7
  /\ length (secretProviderClassesOf (Run.graph props)) = 6
  /\ forall id d, In (id, d) (deploymentsOf (Run.graph props)) ->
       mountList d
       = map (fun s => name (spc_metadata (snd s)))
             (secretProviderClassesOf (Run.graph props))
       /\ length (containers (template_spec d)) = 1
       /\ (forall c, In c (containers (template_spec d)) ->
             env c = LegendPlatform.commonEnv (LegendPlatform.docdbCluster props)
             /\ map mount_name (volumeMounts c) = map vol_name (volumes (template_spec d)))
       /\ (forall sid s, In (sid, s) (secretProviderClassesOf (Run.graph props)) ->
             name (spc_metadata s) = "cert-spc" \/ name (spc_metadata s) = "grafana-spc" ->
             In (name (spc_metadata s)) (mountList d)
             /\ Env.unreferenced s d = true).
Proof.
  intros Hret. destruct (returned_complete props Hret) as (ms & _ & Hg). rewrite Hg.
  rewrite complete_deployments, complete_bindings.
  split; [reflexivity|]. split; [reflexivity|].
  intros id d Hd. apply in_map_iff in Hd. destruct Hd as (comp & Hd & _).
  inversion Hd; subst id d; clear Hd.
  split; [reflexivity|]. split; [reflexivity|]. split.
  - intros c Hc. members Hc. split; reflexivity.
  - intros sid s Hs Hname. unfold secretProviderClassesOf, Checkpoint.preamble in Hs.
    members Hs; destruct Hname as [Hname|Hname]; try discriminate Hname.
    + split; [ cbn; tauto | reflexivity ].
    + split; [ cbn; tauto | reflexivity ].
Qed.

Lemma every_workload_mounts_every_binding_witness :
  length (deploymentsOf (Run.graph Sample.props)) = 7
  /\ length (secretProviderClassesOf (Run.graph Sample.props)) = 6.
Proof.
  pose proof (every_workload_mounts_every_binding Sample.props eq_refl) as H.
  split; [ exact (proj1 H) | exact (proj1 (proj2 H)) ].
Defined.

(** * Further properties of the constructs *)

(** ** The constructor and the cluster it is given *)

Lemma registered_app (ms l : list (NodeId * Manifest)) d id :
  registered (mkCluster (ms ++ l) d) id
  = registered (mkCluster ms d) id || existsb (String.eqb id) (map fst l).
Proof. unfold registered. cbn [manifests]. rewrite map_app, existsb_app. reflexivity. Qed.

(** One registration on a cluster that has grown by [l]. *)
Lemma addManifest_app c (l : list (NodeId * Manifest)) d id m :
  registered c id = false ->
  existsb (String.eqb id) (map fst l) = false ->
  addManifest id m (mkCluster (manifests c ++ l) d)
  = (Returned id, mkCluster (manifests c ++ (l ++ [(id, m)])) d).
Proof.
  intros Hc Hl.
  assert (Hfree : registered (mkCluster (manifests c ++ l) d) id = false).
  { rewrite registered_app. unfold registered in *. cbn [manifests].
    rewrite Hc. exact Hl. }
  unfold addManifest. rewrite Hfree. cbn [manifests dependencies].
  rewrite app_assoc. reflexivity.
Qed.

Lemma cluster_eta c : c = mkCluster (manifests c ++ []) (dependencies c ++ []).
Proof. destruct c. cbn. rewrite !app_nil_r. reflexivity. Qed.

Ltac node_name := cbn [In Input.nodeNames]; repeat (first [ left; reflexivity | right ]).

Ltac register Hfree :=
  rewrite addManifest_app;
  [ cbv beta iota; cbn [manifests dependencies] | apply Hfree; node_name | reflexivity ].

Section Occupied.

Variable env : Cdk.DatabaseCluster -> list EnvVar.
Variable routes : list HTTPIngressPath.
Variable props : LegendPlatform.LegendPlatformProps.
Variable c : Cluster.
Hypothesis Hfree : forall n, In n Input.nodeNames -> registered c n = false.

Lemma assemble_without_secret_on :
  Cdk.secret (LegendPlatform.docdbCluster props) = None ->
  LegendPlatform.assemble env routes props c
  = (Thrown LegendPlatform.noMasterSecret,
     mkCluster (manifests c ++ Checkpoint.preamble props) (dependencies c)).
Proof.
  intros Hnone. rewrite (cluster_eta c) at 1.
  unfold LegendPlatform.assemble, bind, LegendPlatform.createSecretProviderClass.
  do 6 register Hfree.
  rewrite Hnone. unfold throw. rewrite app_nil_r. reflexivity.
Qed.

Lemma assemble_with_secret_on s :
  Cdk.secret (LegendPlatform.docdbCluster props) = Some s ->
  LegendPlatform.assemble env routes props c
  = (Returned tt,
     mkCluster (manifests c ++ manifests (Checkpoint.complete env routes props s))
               (dependencies c ++ dependencies (Checkpoint.complete env routes props s))).
Proof.
  intros Hsome. rewrite (cluster_eta c) at 1.
  unfold LegendPlatform.assemble, bind, LegendPlatform.createSecretProviderClass.
  do 6 register Hfree.
  rewrite Hsome.
  register Hfree.
  cbn [forEach LegendPlatform.components bind ret].
  unfold bind, addDependency. cbn [manifests dependencies LegendPlatform.comp_name].
  do 14 register Hfree.
  unfold ret. cbv beta iota.
  do 2 register Hfree.
  cbn [manifests dependencies map].
  repeat rewrite <- app_assoc. reflexivity.
Qed.

End Occupied.

(** X1. On a cluster that holds none of the constructor's node names the
    constructor only appends: the manifests and edges already there are
    kept, in place and in order, and what is appended and whether the
    constructor throws are what they are on a fresh cluster. On a cluster
    that already holds the namespace node the constructor throws at its
    first statement and leaves the cluster as it was; so a second
    construction on the cluster of a first one fails. *)
Theorem constructor_appends props c :
  ((forall n, In n Input.nodeNames -> registered c n = false) ->
     fst (LegendPlatform.constructor props c) = Run.outcome props
     /\ manifests (snd (LegendPlatform.constructor props c))
        = manifests c ++ manifests (Run.graph props)
     /\ dependencies (snd (LegendPlatform.constructor props c))
        = dependencies c ++ dependencies (Run.graph props))
  /\ (registered c "LegendNamespace" = true ->
        LegendPlatform.constructor props c
        = (Thrown (alreadyRegistered "LegendNamespace"), c))
  /\ LegendPlatform.constructor props (Run.graph props)
     = (Thrown (alreadyRegistered "LegendNamespace"), Run.graph props).
Proof.
  assert (Htaken : forall c', registered c' "LegendNamespace" = true ->
            LegendPlatform.constructor props c'
            = (Thrown (alreadyRegistered "LegendNamespace"), c')).
  { intros c' H. unfold LegendPlatform.constructor, LegendPlatform.assemble, bind,
      addManifest. rewrite H. reflexivity. }
  split; [|split].
  - intros Hfree. unfold Run.outcome, Run.graph, LegendPlatform.constructor.
    destruct (Cdk.secret (LegendPlatform.docdbCluster props)) as [s|] eqn:Hsecret.
    + rewrite (assemble_with_secret_on _ _ props c Hfree s Hsecret).
      rewrite (assemble_with_secret _ _ props s Hsecret). repeat split.
    + rewrite (assemble_without_secret_on _ _ props c Hfree Hsecret).
      rewrite (assemble_without_secret _ _ props Hsecret).
      cbn [fst snd manifests dependencies]. rewrite app_nil_r. repeat split.
  - apply Htaken.
  - apply Htaken. unfold Run.graph, LegendPlatform.constructor.
    destruct (Cdk.secret (LegendPlatform.docdbCluster props)) as [s|] eqn:Hsecret.
    + rewrite (assemble_with_secret _ _ props s Hsecret). reflexivity.
    + rewrite (assemble_without_secret _ _ props Hsecret). reflexivity.
Qed.

Lemma constructor_appends_witness :
  map fst (manifests (snd (LegendPlatform.constructor Sample.props Sample2.occupied)))
  = "Monitoring" :: Input.nodeNames.
Proof.
  destruct (constructor_appends Sample.props Sample2.occupied) as (Happ & _ & _).
  destruct Happ as (_ & Hm & _).
  - intros n Hn. cbn [In Input.nodeNames] in Hn.
    repeat (destruct Hn as [<-|Hn]; [ reflexivity | ]). contradiction.
  - rewrite Hm. vm_compute. reflexivity.
Defined.

(** ** Registration order and declared edges *)

Lemma position_registered names node i :
  Inspect.position names node = Some i -> nth_error names i = Some node.
Proof.
  revert i. induction names as [|n rest IH]; intros i H; [discriminate H|].
  cbn [Inspect.position] in H. destruct (String.eqb n node) eqn:E.
  - injection H as <-. apply String.eqb_eq in E. subst. reflexivity.
  - destruct (Inspect.position rest node) as [k|]; [|discriminate H].
    injection H as <-. cbn [nth_error]. apply IH. reflexivity.
Qed.

(** X2. In a completed graph every declared edge joins two registered nodes
    and its prerequisite is registered strictly before its dependent: the
    registration order is a topological order of the edges, so the declared
    graph has no cycle and no edge to a node that does not exist. *)
Theorem edges_point_back props :
  Run.outcome props = Returned tt ->
  forall dependent prerequisite,
    Edges.edge (Run.graph props) dependent prerequisite ->
    exists i j,
      nth_error (map fst (manifests (Run.graph props))) i = Some prerequisite
      /\ nth_error (map fst (manifests (Run.graph props))) j = Some dependent
      /\ i < j.
Proof.
  intros Hret d p He.
  destruct (returned_complete props Hret) as (ms & _ & Hg). rewrite Hg in *.
  set (g := Checkpoint.complete _ _ props ms) in *.
  assert (Hall : forallb (Inspect.pointsBack g) (dependencies g) = true)
    by (vm_compute; reflexivity).
  rewrite forallb_forall in Hall. specialize (Hall (d, p) He).
  unfold Inspect.pointsBack in Hall. cbn [fst snd] in Hall.
  destruct (Inspect.position (map fst (manifests g)) p) as [i|] eqn:Hp; [|discriminate Hall].
  destruct (Inspect.position (map fst (manifests g)) d) as [j|] eqn:Hd; [|discriminate Hall].
  exists i, j. repeat split.
  - apply position_registered. exact Hp.
  - apply position_registered. exact Hd.
  - apply Nat.ltb_lt. exact Hall.
Qed.

Lemma edges_point_back_witness :
  exists i j,
    nth_error (map fst (manifests (Run.graph Sample.props))) i = Some "LegendIngress"
    /\ nth_error (map fst (manifests (Run.graph Sample.props))) j
       = Some "LegendNetworkPolicy"
    /\ i < j.
Proof.
  apply (edges_point_back Sample.props eq_refl "LegendNetworkPolicy" "LegendIngress").
  apply edgeb_edge. vm_compute. reflexivity.
Defined.

(** ** Services, deployments and routing rules *)

Lemma complete_services env routes props s :
  Inspect.servicesOf (Checkpoint.complete env routes props s)
  = map (fun comp =>
           (Checkpoint.serviceNode comp,
            LegendPlatform.makeService LegendPlatform.namespace
              (LegendPlatform.comp_name comp) (LegendPlatform.comp_port comp)))
        LegendPlatform.components.
Proof. reflexivity. Qed.

(** X3. Every service of the graph selects a deployment of the graph: there
    is a deployment of the same name in the same namespace whose pod labels
    are the service's selector and the deployment's own selector, and every
    port of the service forwards to itself on a port the deployment's
    container opens. Every deployment has such a service. *)
Theorem services_select_deployments props :
  Run.outcome props = Returned tt ->
  (forall id s, In (id, s) (Inspect.servicesOf (Run.graph props)) ->
     exists dplId d,
       In (dplId, d) (deploymentsOf (Run.graph props))
       /\ Edges.edge (Run.graph props) id dplId
       /\ name (dpl_metadata d) = name (svc_metadata s)
       /\ namespace (dpl_metadata d) = namespace (svc_metadata s)
       /\ template_labels d = selector s
       /\ matchLabels d = selector s
       /\ forall p, In p (svc_ports s) ->
            targetPort p = svc_port p /\ In (targetPort p) (Inspect.openPorts d))
  /\ map (fun d => name (dpl_metadata (snd d))) (deploymentsOf (Run.graph props))
     = map (fun s => name (svc_metadata (snd s))) (Inspect.servicesOf (Run.graph props)).
Proof.
  intros Hret. destruct (returned_complete props Hret) as (ms & _ & Hg). rewrite Hg.
  rewrite complete_services, complete_deployments. split; [|reflexivity].
  intros id s Hs. apply in_map_iff in Hs. destruct Hs as (comp & Hs & Hcomp).
  inversion Hs; subst id s; clear Hs.
  exists (Checkpoint.deployNode comp). eexists. split.
  { apply in_map_iff. exists comp. split; [reflexivity | exact Hcomp]. }
  split.
  { unfold Edges.edge. rewrite complete_dependencies. apply in_or_app. left.
    apply in_flat_map. exists comp. split; [exact Hcomp|].
    unfold Checkpoint.workloadEdges. apply in_or_app. right. left. reflexivity. }
  repeat split.
  - destruct H as [H|[]]. subst p. reflexivity.
  - destruct H as [H|[]]. subst p. left. reflexivity.
Qed.

Lemma services_select_deployments_witness :
  map (fun d => name (dpl_metadata (snd d))) (deploymentsOf (Run.graph Sample.props))
  = map (fun s => name (svc_metadata (snd s))) (Inspect.servicesOf (Run.graph Sample.props)).
Proof. exact (proj2 (services_select_deployments Sample.props eq_refl)). Defined.

(** X4. Every routing rule of the ingress targets a service of the graph
    on a port that service exposes, in the namespace of the ingress, and
    the rules and the services correspond one to one, in the same order:
    no rule points at a missing service or a wrong port, and no service is
    left without a route. *)
Theorem routes_target_services props :
  Run.outcome props = Returned tt ->
  map Inspect.ruleTarget (routingTable (Run.graph props))
  = flat_map (fun s => Inspect.serviceTargets (snd s)) (Inspect.servicesOf (Run.graph props))
  /\ (forall r, In r (routingTable (Run.graph props)) ->
        exists id s, In (id, s) (Inspect.servicesOf (Run.graph props))
                     /\ name (svc_metadata s) = backend_service r
                     /\ namespace (svc_metadata s) = Some LegendPlatform.namespace
                     /\ In (backend_port r) (map svc_port (svc_ports s)))
  /\ forall id i, In (id, IngressM i) (manifests (Run.graph props)) ->
       namespace (ing_metadata i) = Some LegendPlatform.namespace.
Proof.
  intros Hret. destruct (returned_complete props Hret) as (ms & _ & Hg). rewrite Hg.
  rewrite complete_routingTable, complete_services.
  assert (Htargets :
            map Inspect.ruleTarget LegendPlatform.ingressPaths
            = flat_map (fun s => Inspect.serviceTargets (snd s))
                (map (fun comp =>
                        (Checkpoint.serviceNode comp,
                         LegendPlatform.makeService LegendPlatform.namespace
                           (LegendPlatform.comp_name comp) (LegendPlatform.comp_port comp)))
                     LegendPlatform.components)) by reflexivity.
  split; [exact Htargets|]. split.
  - intros r Hr. apply (in_map Inspect.ruleTarget) in Hr. rewrite Htargets in Hr.
    apply in_flat_map in Hr. destruct Hr as ([id s] & Hs & Hin).
    unfold Inspect.serviceTargets in Hin. cbn [snd] in Hin.
    apply in_map_iff in Hin. destruct Hin as (p & Heq & Hp).
    unfold Inspect.ruleTarget in Heq. injection Heq as Hname Hport.
    exists id, s. split; [exact Hs|]. split; [exact Hname|]. split.
    + apply in_map_iff in Hs. destruct Hs as (comp & Hs & _).
      injection Hs as _ <-. reflexivity.
    + apply in_map_iff. exists p. split; assumption.
  - intros id i Hi. members Hi. reflexivity.
Qed.

Lemma routes_target_services_witness :
  map Inspect.ruleTarget (routingTable (Run.graph Sample.props))
  = [ ("legend-engine", 6300%Z); ("legend-sdlc", 6100%Z); ("legend-studio", 9000%Z);
      ("legend-query", 9001%Z); ("legend-pure-ide", 9200%Z); ("legend-depot", 6200%Z);
      ("legend-depot-store", 6201%Z) ].
Proof.
  rewrite (proj1 (routes_target_services Sample.props eq_refl)).
  vm_compute. reflexivity.
Defined.

(** ** Namespaces and object identities *)

(** X5. In a completed graph the first node registered is the namespace
    [legend], every other manifest is placed in that namespace, and no two
    manifests describe the same object: kind and name together are pairwise
    distinct, so no manifest overwrites another on the cluster. *)
Theorem objects_namespaced_and_distinct props :
  Run.outcome props = Returned tt ->
  nth_error (manifests (Run.graph props)) 0
  = Some ("LegendNamespace", NamespaceM (mkMeta LegendPlatform.namespace None []))
  /\ (forall id m, In (id, m) (manifests (Run.graph props)) ->
        kind m <> "Namespace" -> namespace (metadata m) = Some LegendPlatform.namespace)
  /\ NoDup (map (fun n => Inspect.identity (snd n)) (manifests (Run.graph props))).
Proof.
  intros Hret. destruct (returned_complete props Hret) as (ms & _ & Hg). rewrite Hg.
  split; [reflexivity|]. split.
  - intros id m Hin Hkind.
    assert (Hall : forallb (fun n => String.eqb (kind (snd n)) "Namespace"
                                     || Edges.placedIn LegendPlatform.namespace (snd n))
                     (manifests (Checkpoint.complete LegendPlatform.commonEnv
                                   LegendPlatform.ingressPaths props ms)) = true)
      by (vm_compute; reflexivity).
    rewrite forallb_forall in Hall. specialize (Hall (id, m) Hin). cbn [snd] in Hall.
    apply orb_true_iff in Hall. destruct Hall as [Hns|Hin'].
    + apply String.eqb_eq in Hns. contradiction.
    + unfold Edges.placedIn in Hin'.
      destruct (namespace (metadata m)) as [n|]; [|discriminate Hin'].
      apply String.eqb_eq in Hin'. subst n. reflexivity.
  - apply nodup_pairs. vm_compute. reflexivity.
Qed.

Lemma objects_namespaced_and_distinct_witness :
  forallb (fun n => match namespace (metadata (snd n)) with
                    | Some ns => String.eqb ns "legend"
                    | None => String.eqb (kind (snd n)) "Namespace"
                    end) (manifests (Run.graph Sample.props)) = true.
Proof.
  apply forallb_forall. intros [id m] Hin. cbn [snd].
  destruct (String.eqb (kind m) "Namespace") eqn:Hkind.
  - destruct m; try discriminate Hkind.
    vm_compute in Hin.
    repeat (destruct Hin as [Hin|Hin]; [ try discriminate Hin; injection Hin as _ <- | ]);
      try contradiction. reflexivity.
  - apply String.eqb_neq in Hkind.
    rewrite (proj1 (proj2 (objects_namespaced_and_distinct Sample.props eq_refl))
               id m Hin Hkind).
    reflexivity.
Defined.

(** ** Where secret identifiers go *)

Lemma complete_withoutBindings env routes props s :
  Inspect.withoutBindings (Checkpoint.complete env routes props s)
  = ("LegendNamespace", NamespaceM (mkMeta LegendPlatform.namespace None []))
    :: flat_map (Checkpoint.workload (env (LegendPlatform.docdbCluster props)))
                LegendPlatform.components
    ++ [ ("LegendIngress",
          IngressM (LegendPlatform.ingressManifest LegendPlatform.namespace routes));
         ("LegendNetworkPolicy",
          NetworkPolicyM (LegendPlatform.networkPolicyManifest LegendPlatform.namespace
                            (LegendPlatform.vpc props))) ].
Proof. reflexivity. Qed.

(** X6. Secret identifiers enter the binding manifests and nothing else:
    two configurations with the same VPC and the same database endpoint
    build the same namespace, deployments, services, ingress and network
    policy, whatever secrets they name. Workloads reach secrets only through
    the names of the synced objects. *)
Theorem secrets_enter_bindings_only p q :
  Run.outcome p = Returned tt ->
  Run.outcome q = Returned tt ->
  LegendPlatform.vpc p = LegendPlatform.vpc q ->
  Cdk.clusterEndpoint (LegendPlatform.docdbCluster p)
  = Cdk.clusterEndpoint (LegendPlatform.docdbCluster q) ->
  Inspect.withoutBindings (Run.graph p) = Inspect.withoutBindings (Run.graph q)
  /\ dependencies (Run.graph p) = dependencies (Run.graph q)
  /\ map (fun b => secretObjects (snd b)) (secretProviderClassesOf (Run.graph p))
     = map (fun b => secretObjects (snd b)) (secretProviderClassesOf (Run.graph q)).
Proof.
  intros Hp Hq Hvpc Hep.
  destruct (returned_complete p Hp) as (sp & _ & Hgp).
  destruct (returned_complete q Hq) as (sq & _ & Hgq).
  rewrite Hgp, Hgq. split; [|split].
  - rewrite !complete_withoutBindings. unfold LegendPlatform.commonEnv.
    rewrite Hvpc, Hep. reflexivity.
  - rewrite !complete_dependencies. reflexivity.
  - rewrite !complete_bindings. reflexivity.
Qed.

Lemma secrets_enter_bindings_only_witness :
  Cdk.secretArn (LegendPlatform.domainNameSecret Sample.props)
  <> Cdk.secretArn (LegendPlatform.domainNameSecret Sample2.otherSecrets)
  /\ Inspect.withoutBindings (Run.graph Sample.props)
     = Inspect.withoutBindings (Run.graph Sample2.otherSecrets).
Proof.
  split.
  - vm_compute. discriminate.
  - apply (secrets_enter_bindings_only Sample.props Sample2.otherSecrets); reflexivity.
Defined.

(** ** Volumes of a deployment *)

Lemma append_injective (p a b : string) : (p ++ a)%string = (p ++ b)%string -> a = b.
Proof.
  induction p as [|ch p IH]; cbn [append]; intros H; [exact H|].
  injection H as H. exact (IH H).
Qed.

Lemma nodup_map_append (p : string) (l : list string) :
  NoDup l -> NoDup (map (append p) l).
Proof.
  induction 1 as [|x l Hx _ IH]; cbn [map]; constructor; [|exact IH].
  intros Hin. apply in_map_iff in Hin. destruct Hin as (y & Heq & Hy).
  apply append_injective in Heq. subst y. exact (Hx Hy).
Qed.

(** X7. For every application name, also the empty one, [makeDeployment]
    yields six volumes with pairwise distinct names, all read-only CSI
    volumes of the secrets-store driver, and one container that mounts
    exactly these six volumes, read-only, under pairwise distinct paths. *)
Theorem deployment_volumes_well_formed ns env appName image port :
  let d := LegendPlatform.makeDeployment ns env appName image port in
  length (volumes (template_spec d)) = 6
  /\ NoDup (map vol_name (volumes (template_spec d)))
  /\ (forall v, In v (volumes (template_spec d)) ->
        driver (csi v) = "secrets-store.csi.k8s.io" /\ csi_readOnly (csi v) = true)
  /\ length (containers (template_spec d)) = 1
  /\ forall c, In c (containers (template_spec d)) ->
       map mount_name (volumeMounts c) = map vol_name (volumes (template_spec d))
       /\ NoDup (map mountPath (volumeMounts c))
       /\ forall m, In m (volumeMounts c) -> mount_readOnly m = true.
Proof.
  cbv zeta. split; [reflexivity|]. split.
  { change (NoDup (map (append appName)
                       [ "-domain-vol"; "-cert-vol"; "-gitlabid-vol"; "-gitlabsecret-vol";
                         "-grafana-vol"; "-docdb-vol" ])).
    apply nodup_map_append. apply nodup_names. vm_compute. reflexivity. }
  split.
  { intros v Hv. members Hv; split; reflexivity. }
  split; [reflexivity|].
  intros c Hc. members Hc. split; [reflexivity|]. split.
  - change (NoDup (map (append "/mnt/")
                       (map (append appName)
                            [ "/domain"; "/cert"; "/gitlab-id"; "/gitlab-secret";
                              "/grafana"; "/docdb" ]))).
    apply nodup_map_append. apply nodup_map_append.
    apply nodup_names. vm_compute. reflexivity.
  - intros m Hm. members Hm; reflexivity.
Qed.

Lemma deployment_volumes_well_formed_witness :
  NoDup (map vol_name
           (volumes (template_spec
                       (LegendPlatform.makeDeployment "legend" [] "" "image" 80)))).
Proof.
  exact (proj1 (proj2 (deployment_volumes_well_formed "legend" [] "" "image" 80))).
Defined.

(** ** Parameters of createSecretProviderClass *)

(** X8. An optional parameter that is the empty string counts as absent,
    and an alternate property is used only together with an alternate key:
    a property that is absent or empty makes the binding read the entire
    value, and an alternate property or key given without the other, or
    empty, is dropped without notice. *)
Theorem falsy_parameters_absent idSuffix ns arn target key property alternate alternateKey :
  (Js.truthy property = false ->
     LegendPlatform.createSecretProviderClass idSuffix ns arn target key
       property alternate alternateKey
     = LegendPlatform.createSecretProviderClass idSuffix ns arn target key
         None alternate alternateKey)
  /\ (Js.truthy alternate && Js.truthy alternateKey = false ->
        LegendPlatform.createSecretProviderClass idSuffix ns arn target key
          property alternate alternateKey
        = LegendPlatform.createSecretProviderClass idSuffix ns arn target key
            property None None).
Proof.
  unfold LegendPlatform.createSecretProviderClass, LegendPlatform.spcDef,
    LegendPlatform.jmesPath.
  split; intros H.
  - destruct property as [[|a p]|]; [reflexivity | discriminate H | reflexivity].
  - destruct alternate as [[|a p]|]; try reflexivity.
    destruct alternateKey as [[|b k]|]; try reflexivity. discriminate H.
Qed.

Lemma falsy_parameters_absent_witness :
  LegendPlatform.createSecretProviderClass "docdb-spc" "legend" "arn" "legend-docdb-secret"
    "DOCDB_PASSWORD" (Some "") (Some "username") None
  = LegendPlatform.createSecretProviderClass "docdb-spc" "legend" "arn" "legend-docdb-secret"
      "DOCDB_PASSWORD" None None None.
Proof.
  destruct (falsy_parameters_absent "docdb-spc" "legend" "arn" "legend-docdb-secret"
              "DOCDB_PASSWORD" (Some "") (Some "username") None) as [Hp _].
  rewrite (Hp eq_refl).
  destruct (falsy_parameters_absent "docdb-spc" "legend" "arn" "legend-docdb-secret"
              "DOCDB_PASSWORD" None (Some "username") None) as [_ Ha].
  exact (Ha eq_refl).
Defined.

(** X9. [createSecretProviderClass] does not compare its two keys: called
    on a cluster where its id is free with an alternate key equal to the
    first key, it returns normally and registers a binding whose synced
    secret receives the same key twice, once per property. *)
Theorem duplicate_key_registered idSuffix ns arn target key property alternate c :
  registered c ("SecretProviderClass-" ++ idSuffix) = false ->
  Js.truthy (Some property) = true ->
  Js.truthy (Some alternate) = true ->
  Js.truthy (Some key) = true ->
  exists b,
    LegendPlatform.createSecretProviderClass idSuffix ns arn target key
      (Some property) (Some alternate) (Some key) c
    = (Returned ("SecretProviderClass-" ++ idSuffix)%string,
       mkCluster (manifests c
                  ++ [(("SecretProviderClass-" ++ idSuffix)%string, SecretProviderClassM b)])
                 (dependencies c))
    /\ map (fun o => jmesPath o) (objects b)
       = [ [ mkJmes property key; mkJmes alternate key ] ]
    /\ map (fun so => map K8s.key (data so)) (secretObjects b) = [ [ key; key ] ]
    /\ ~ NoDup (flat_map (fun so => map K8s.key (data so)) (secretObjects b)).
Proof.
  intros Hfree Hp Ha Hk. eexists.
  split; [apply createSecretProviderClass_free; exact Hfree|].
  unfold LegendPlatform.spcDef, LegendPlatform.jmesPath.
  destruct property as [|a1 p1]; [discriminate Hp|].
  destruct alternate as [|a2 p2]; [discriminate Ha|].
  destruct key as [|a3 p3]; [discriminate Hk|].
  split; [reflexivity|]. split; [reflexivity|].
  cbn. intros Hnd. inversion Hnd as [|x l Hnotin _]. apply Hnotin. left. reflexivity.
Qed.

Lemma duplicate_key_registered_witness :
  exists b,
    LegendPlatform.createSecretProviderClass "docdb-spc" "legend" "arn" "legend-docdb-secret"
      "DOCDB" (Some "password") (Some "username") (Some "DOCDB") newCluster
    = (Returned "SecretProviderClass-docdb-spc",
       mkCluster [("SecretProviderClass-docdb-spc", SecretProviderClassM b)] [])
    /\ map (fun so => map K8s.key (data so)) (secretObjects b) = [ [ "DOCDB"; "DOCDB" ] ].
Proof.
  destruct (duplicate_key_registered "docdb-spc" "legend" "arn" "legend-docdb-secret"
              "DOCDB" "password" "username" newCluster eq_refl eq_refl eq_refl eq_refl)
    as (b & Hrun & _ & Hkeys & _).
  exists b. split; [ exact Hrun | exact Hkeys ].
Defined.

(** X10. [createSecretProviderClass] either throws or registers one
    manifest. When the id [SecretProviderClass-<idSuffix>] is taken on the
    cluster it throws and leaves the cluster as it was. When the id is free
    it returns that id and appends one manifest, whatever the other
    arguments: the binding is named by the suffix, reads exactly the record
    it is given and writes exactly the synced secret it is given; it has one
    or two field entries, the first under the given key, and every synced
    key is the alias of the field it is read from. A second call with the
    same suffix therefore throws. *)
Theorem binding_shape idSuffix ns arn target key property alternate alternateKey c :
  (registered c ("SecretProviderClass-" ++ idSuffix) = true ->
     LegendPlatform.createSecretProviderClass idSuffix ns arn target key
       property alternate alternateKey c
     = (Thrown (alreadyRegistered ("SecretProviderClass-" ++ idSuffix)), c))
  /\ (registered c ("SecretProviderClass-" ++ idSuffix) = false ->
        exists b c',
          LegendPlatform.createSecretProviderClass idSuffix ns arn target key
            property alternate alternateKey c
          = (Returned ("SecretProviderClass-" ++ idSuffix)%string, c')
          /\ c' = mkCluster (manifests c
                             ++ [(("SecretProviderClass-" ++ idSuffix)%string,
                                  SecretProviderClassM b)])
                            (dependencies c)
          /\ spc_metadata b = mkMeta idSuffix (Some ns) []
          /\ map objectName (objects b) = [arn]
          /\ map secretName (secretObjects b) = [target]
          /\ (forall o so, In o (objects b) -> In so (secretObjects b) ->
                map data_objectName (data so) = map objectAlias (jmesPath o)
                /\ map K8s.key (data so) = map objectAlias (jmesPath o))
          /\ (exists rest,
                flat_map (fun so => map K8s.key (data so)) (secretObjects b) = key :: rest
                /\ length rest <= 1)
          /\ forall ns' arn' target' key' property' alternate' alternateKey',
               LegendPlatform.createSecretProviderClass idSuffix ns' arn' target' key'
                 property' alternate' alternateKey' c'
               = (Thrown (alreadyRegistered ("SecretProviderClass-" ++ idSuffix)), c')).
Proof.
  split.
  - apply createSecretProviderClass_taken.
  - intros Hfree. do 2 eexists.
    split; [apply createSecretProviderClass_free; exact Hfree|].
    split; [reflexivity|]. split; [reflexivity|].
    split; [reflexivity|]. split; [reflexivity|]. split; [|split].
    + intros o so Ho Hso. members Ho. members Hso.
      cbn [data jmesPath]. rewrite !map_map. split; reflexivity.
    + unfold LegendPlatform.spcDef, LegendPlatform.jmesPath.
      destruct property as [[|a1 p1]|];
        destruct alternate as [[|a2 p2]|];
        destruct alternateKey as [[|a3 p3]|];
        eexists; (split; [ reflexivity | cbn; lia ]).
    + intros. apply createSecretProviderClass_taken.
      rewrite registered_app. cbn [map fst existsb].
      rewrite String.eqb_refl. apply orb_true_iff. right. reflexivity.
Qed.

Lemma binding_shape_witness :
  (exists b c',
     LegendPlatform.createSecretProviderClass "x" "ns" "arn" "target" "KEY"
       (Some "a") (Some "") (Some "K2") Sample2.occupied
     = (Returned "SecretProviderClass-x", c')
     /\ c' = mkCluster (manifests Sample2.occupied
                        ++ [("SecretProviderClass-x", SecretProviderClassM b)])
                       (dependencies Sample2.occupied))
  /\ LegendPlatform.createSecretProviderClass "domain-spc" "ns" "arn" "target" "KEY"
       None None None (Run.graph Sample.props)
     = (Thrown (alreadyRegistered "SecretProviderClass-domain-spc"), Run.graph Sample.props).
Proof.
  split.
  - destruct (proj2 (binding_shape "x" "ns" "arn" "target" "KEY" (Some "a") (Some "")
                       (Some "K2") Sample2.occupied) eq_refl)
      as (b & c' & Hrun & Hc' & _).
    exists b, c'. split; [ exact Hrun | exact Hc' ].
  - apply (proj1 (binding_shape "domain-spc" "ns" "arn" "target" "KEY" None None None
                    (Run.graph Sample.props))).
    vm_compute. reflexivity.
Defined.

(** ** Generated secrets and what the bindings read *)

(** X12. Each of the five secrets of the secrets stack is generated as a
    JSON object, from the template [{}] with the generated string under the
    key [value]. The binding the platform makes for each of its five
    single-value secrets reads the entire secret string (path [.]), not a
    property such as [value]; only the database binding extracts
    properties, [password] and [username]. *)
Theorem generated_key_not_extracted props :
  Run.outcome props = Returned tt ->
  (forall d, In d (LegendSecretsStack.secrets LegendSecretsStack.constructor) ->
     LegendSecretsStack.secretStringTemplate (LegendSecretsStack.generateSecretString d)
     = "{}"
     /\ LegendSecretsStack.generateStringKey (LegendSecretsStack.generateSecretString d)
        = "value")
  /\ map (fun s => map (fun e => (sourceRecord e, sourceProperty e)) (fieldMap (snd s)))
         (secretProviderClassesOf (Run.graph props))
     = map (fun r => [ (Cdk.secretArn r, ".") ]) (firstn 5 (Input.records props))
       ++ map (fun r => [ (Cdk.secretArn r, "password"); (Cdk.secretArn r, "username") ])
              (skipn 5 (Input.records props)).
Proof.
  intros Hret. split.
  - intros d Hd. members Hd; split; reflexivity.
  - destruct (returned_complete props Hret) as (ms & Hsome & Hg). rewrite Hg.
    unfold Input.records. rewrite Hsome.
    rewrite <- (map_map (fun s => fieldMap (snd s))).
    rewrite complete_fieldMaps. reflexivity.
Qed.

Lemma generated_key_not_extracted_witness :
  map (fun s => map (fun e => (sourceRecord e, sourceProperty e)) (fieldMap (snd s)))
      (secretProviderClassesOf (Run.graph Sample.props))
  = map (fun r => [ (Cdk.secretArn r, ".") ]) (firstn 5 (Input.records Sample.props))
    ++ map (fun r => [ (Cdk.secretArn r, "password"); (Cdk.secretArn r, "username") ])
           (skipn 5 (Input.records Sample.props)).
Proof. exact (proj2 (generated_key_not_extracted Sample.props eq_refl)). Defined.

(** ** Environment references and the mount list *)

(** X16. In the graph the constructor builds, every environment variable
    of every deployment that reads a synced secret is served by a binding
    the deployment mounts: a binding of the graph, named in the deployment's
    volumes, syncs the key into the secret the variable names. Exactly one
    binding of the graph does. *)
Theorem environment_references_mounted props :
  Run.outcome props = Returned tt ->
  forall id d, In (id, d) (deploymentsOf (Run.graph props)) ->
    Env.consistent (Run.graph props) d = true
    /\ forall e src, In e (envOf d) -> valueFrom e = Some src ->
         (exists sid b,
            In (sid, b) (secretProviderClassesOf (Run.graph props))
            /\ In (name (spc_metadata b)) (mountList d)
            /\ secretProvides b (ref_name (secretKeyRef src)) (ref_key (secretKeyRef src))
               = true)
         /\ length (filter (fun b => secretProvides (snd b) (ref_name (secretKeyRef src))
                                       (ref_key (secretKeyRef src)))
                           (secretProviderClassesOf (Run.graph props))) = 1.
Proof.
  intros Hret id d Hd.
  destruct (returned_complete props Hret) as (ms & _ & Hg). rewrite Hg in *.
  rewrite complete_deployments in Hd.
  apply in_map_iff in Hd. destruct Hd as (comp & Hd & _).
  inversion Hd; subst id d; clear Hd.
  assert (Hcons : Env.consistent
                    (Checkpoint.complete LegendPlatform.commonEnv
                       LegendPlatform.ingressPaths props ms)
                    (LegendPlatform.makeDeployment LegendPlatform.namespace
                       (LegendPlatform.commonEnv (LegendPlatform.docdbCluster props))
                       (LegendPlatform.comp_name comp) (LegendPlatform.comp_image comp)
                       (LegendPlatform.comp_port comp)) = true).
  { unfold Env.consistent, envRefMounted. rewrite complete_bindings.
    vm_compute. reflexivity. }
  split; [exact Hcons|].
  intros e src He Hsrc. split.
  - unfold Env.consistent in Hcons. rewrite forallb_forall in Hcons.
    specialize (Hcons e He). rewrite Hsrc in Hcons.
    unfold envRefMounted in Hcons. apply existsb_exists in Hcons.
    destruct Hcons as ([sid b] & Hin & Hb). cbn [snd] in Hb.
    apply andb_true_iff in Hb. destruct Hb as [Hmount Hprov].
    apply existsb_exists in Hmount. destruct Hmount as (n & Hn & Heq).
    apply String.eqb_eq in Heq. subst n.
    exists sid, b. repeat split; assumption.
  - rewrite complete_bindings.
    unfold envOf in He. cbn [LegendPlatform.makeDeployment template_spec
      containers flat_map env app LegendPlatform.commonEnv] in He.
    members He; try discriminate Hsrc; injection Hsrc as <-; vm_compute; reflexivity.
Qed.

Lemma environment_references_mounted_witness :
  forallb (fun nd => Env.consistent (Run.graph Sample.props) (snd nd))
          (deploymentsOf (Run.graph Sample.props))
  = true.
Proof.
  apply forallb_forall. intros [id d] Hin.
  exact (proj1 (environment_references_mounted Sample.props eq_refl id d Hin)).
Defined.
